(** * Mixed payments of the PDV: ledger rule, triggers and client hook

    A shallow embedding of
    - the migration [20250820173339_super_tooth.sql]: the table
      [pdv_order_payments], the functions [get_order_payment_total],
      [is_order_fully_paid], [update_order_payment_status],
      [update_updated_at_column] and the two triggers;
    - the React hook [useMixedPayment] and the types of [mixed-payment.ts].

    Money on the server: the column is [numeric(10,2)], an exact decimal with
    two fraction digits.  A stored amount is represented by its number of
    hundredths (centavos) as a [Z]; the server's sums and comparisons are then
    exact integer arithmetic.

    Money in the hook: a JavaScript [number] is an IEEE 754 binary64 value,
    here a primitive [float], with the machine's addition, subtraction and
    comparisons.  Module [Js] holds the two conversions on the wire: a
    [numeric] read as a JSON number, and a number written as JSON and taken
    in by a [numeric(10,2)] column.

    Tables are finite maps from the primary key to the remaining columns. *)

From Stdlib Require Import ZArith String Floats.
From stdpp Require Import gmap strings list fin_maps sorting pretty.

Local Open Scope Z_scope.

(** ** The database side *)

Module Db.

Inductive payment_type_enum : Set :=
  | dinheiro | pix | cartao_credito | cartao_debito | voucher.

Inductive payment_status_enum : Set :=
  | pending | confirmed | cancelled.

#[global] Instance payment_type_enum_eq_dec : EqDecision payment_type_enum.
Proof. solve_decision. Defined.

#[global] Instance payment_status_enum_eq_dec : EqDecision payment_status_enum.
Proof. solve_decision. Defined.

Abbreviation uuid := string (only parsing).
Abbreviation timestamptz := Z (only parsing).
Abbreviation numeric := Z (only parsing).

(** A row of [pdv_order_payments], without its primary key [id].  The columns
    [status], [notes], [created_at] and [updated_at] are nullable. *)
Record payment_row : Type := {
  order_id : uuid;
  payment_type : payment_type_enum;
  amount : numeric;
  status : option payment_status_enum;
  notes : option string;
  created_at : option timestamptz;
  updated_at : option timestamptz
}.

(** Modelled from the spec: the table [pdv_sales] is created by another
    migration; only its columns [id], [total_amount] and [updated_at] are
    used here ("Order: external entity owning a total-amount field and an
    updated timestamp").  Its other columns are kept as one field of an
    arbitrary type. *)
Record sale_row {Other : Type} : Type := {
  total_amount : option numeric;
  sale_updated_at : timestamptz;
  sale_other : Other
}.
Arguments sale_row : clear implicits.

Record database {Other : Type} : Type := {
  pdv_sales : gmap uuid (sale_row Other);
  pdv_order_payments : gmap uuid payment_row
}.
Arguments database : clear implicits.

Inductive pg_error : Set :=
  | not_null_violation
  | numeric_value_out_of_range
  | check_violation
  | unique_violation
  | foreign_key_violation.

Inductive pg_result (A : Type) : Type :=
  | PgOk (a : A)
  | PgError (e : pg_error).
Arguments PgOk {A} a.
Arguments PgError {A} e.

(** SQL aggregates and [COALESCE]. *)
Definition SUM (l : list numeric) : option numeric :=
  match l with
  | [] => None
  | _ => Some (foldr Z.add 0 l)
  end.

Definition COALESCE {A : Type} (v : option A) (d : A) : A :=
  match v with
  | Some a => a
  | None => d
  end.

Section Server.
Context {Other : Type}.

(** [WHERE order_id = order_uuid AND status = 'confirmed'] *)
Definition confirmed_for (order_uuid : uuid) (r : payment_row) : Prop :=
  order_id r = order_uuid ∧ status r = Some confirmed.

#[global] Instance confirmed_for_dec order_uuid r : Decision (confirmed_for order_uuid r).
Proof. unfold confirmed_for. apply _. Defined.

Definition rows (d : database Other) : list payment_row :=
  (map_to_list (pdv_order_payments d)).*2.

Definition get_order_payment_total (d : database Other) (order_uuid : uuid) : numeric :=
  COALESCE (SUM (amount <$> filter (confirmed_for order_uuid) (rows d))) 0.

(** [SELECT total_amount INTO order_total FROM pdv_sales WHERE id = order_uuid]
    leaves [order_total] NULL when no row matches. *)
Definition is_order_fully_paid (d : database Other) (order_uuid : uuid) : bool :=
  let order_total := pdv_sales d !! order_uuid ≫= total_amount in
  let payments_total := Some (get_order_payment_total d order_uuid) in
  bool_decide (COALESCE payments_total 0 >= COALESCE order_total 0).

(** [UPDATE pdv_sales SET updated_at = now() WHERE id = ...] *)
Definition set_updated_at (now : timestamptz) (s : sale_row Other) : sale_row Other :=
  {| total_amount := total_amount s;
     sale_updated_at := now;
     sale_other := sale_other s |}.

(** The trigger function, run with [NEW] after the row has been written. *)
Definition update_order_payment_status (now : timestamptz) (NEW : payment_row)
    (d : database Other) : database Other :=
  if is_order_fully_paid d (order_id NEW) then
    {| pdv_sales := alter (set_updated_at now) (order_id NEW) (pdv_sales d);
       pdv_order_payments := pdv_order_payments d |}
  else d.

Definition update_updated_at_column (now : timestamptz) (NEW : payment_row) : payment_row :=
  {| order_id := order_id NEW;
     payment_type := payment_type NEW;
     amount := amount NEW;
     status := status NEW;
     notes := notes NEW;
     created_at := created_at NEW;
     updated_at := Some now |}.

(** Column constraints of [pdv_order_payments]: [numeric(10,2)] holds fewer
    than 10^8 units, [CHECK (amount > 0)], and the foreign key to
    [pdv_sales(id)]. *)
Definition constraints (d : database Other) (r : payment_row) : option pg_error :=
  if bool_decide (10 ^ 10 ≤ Z.abs (amount r)) then Some numeric_value_out_of_range
  else if negb (bool_decide (amount r > 0)) then Some check_violation
  else if bool_decide (pdv_sales d !! order_id r = None) then Some foreign_key_violation
  else None.

(** The same constraints in the order an INSERT meets them: the checks on the
    row's own columns come before the primary key, the foreign key after. *)
Definition column_checks (r : payment_row) : option pg_error :=
  if bool_decide (10 ^ 10 ≤ Z.abs (amount r)) then Some numeric_value_out_of_range
  else if negb (bool_decide (amount r > 0)) then Some check_violation
  else None.

Definition foreign_key (d : database Other) (r : payment_row) : option pg_error :=
  if bool_decide (pdv_sales d !! order_id r = None) then Some foreign_key_violation
  else None.

(** The table with the row of key [k] written (added or replaced). *)
Definition write_row (k : uuid) (r : payment_row) (d : database Other) : database Other :=
  {| pdv_sales := pdv_sales d;
     pdv_order_payments := <[k := r]> (pdv_order_payments d) |}.

(** The values an [INSERT] statement gives; [None] for a column left out. *)
Record insert_values : Type := {
  ins_order_id : uuid;
  ins_payment_type : payment_type_enum;
  ins_amount : numeric;
  ins_status : option payment_status_enum;
  ins_notes : option string
}.

Definition new_row (now : timestamptz) (v : insert_values) : payment_row :=
  {| order_id := ins_order_id v;
     payment_type := ins_payment_type v;
     amount := ins_amount v;
     status := Some (COALESCE (ins_status v) confirmed);
     notes := ins_notes v;
     created_at := Some now;
     updated_at := Some now |}.

(** [INSERT INTO pdv_order_payments ... RETURNING *]: the row gets the key
    [gen_random_uuid], the defaults are filled in, the constraints are
    checked (column checks, then the primary key, then the foreign key), and
    [trg_update_order_payment_status] fires AFTER INSERT. *)
Definition insert_payment (now : timestamptz) (gen_random_uuid : uuid)
    (v : insert_values) (d : database Other)
    : pg_result (database Other * (uuid * payment_row)) :=
  let NEW := new_row now v in
  match column_checks NEW with
  | Some e => PgError e
  | None =>
      match pdv_order_payments d !! gen_random_uuid with
      | Some _ => PgError unique_violation
      | None =>
          match foreign_key d NEW with
          | Some e => PgError e
          | None =>
              PgOk (update_order_payment_status now NEW
                      (write_row gen_random_uuid NEW d),
                    (gen_random_uuid, NEW))
          end
      end
  end.

(** [UPDATE pdv_order_payments SET ... WHERE id = payment_id]: the SET clause
    is a function of the old row.  [update_pdv_order_payments_updated_at]
    fires BEFORE UPDATE, [trg_update_order_payment_status] AFTER UPDATE.  A
    statement matching no row changes nothing. *)
Definition update_payment (now : timestamptz) (payment_id : uuid)
    (set : payment_row → payment_row) (d : database Other)
    : pg_result (database Other) :=
  match pdv_order_payments d !! payment_id with
  | None => PgOk d
  | Some OLD =>
      let NEW := update_updated_at_column now (set OLD) in
      match constraints d NEW with
      | Some e => PgError e
      | None =>
          PgOk (update_order_payment_status now NEW (write_row payment_id NEW d))
      end
  end.

(** [DELETE FROM pdv_order_payments WHERE id = payment_id]: no trigger is
    declared for DELETE. *)
Definition delete_payment (payment_id : uuid) (d : database Other) : database Other :=
  {| pdv_sales := pdv_sales d;
     pdv_order_payments := delete payment_id (pdv_order_payments d) |}.

(** [DELETE FROM pdv_sales WHERE id = sale_id], as far as these two tables
    go: the foreign key [pdv_order_payments_order_id_fkey] is declared
    ON DELETE CASCADE, so the payments of the sale go with it.  No trigger of
    [pdv_order_payments] is declared for DELETE. *)
Definition delete_sale (sale_id : uuid) (d : database Other) : database Other :=
  {| pdv_sales := delete sale_id (pdv_sales d);
     pdv_order_payments :=
       filter (λ kr, order_id kr.2 ≠ sale_id) (pdv_order_payments d) |}.

(** Every stored row satisfies the constraints of the table. *)
Definition valid (d : database Other) : Prop :=
  map_Forall (λ _ r, constraints d r = None) (pdv_order_payments d).

#[global] Instance valid_dec d : Decision (valid d).
Proof. unfold valid. apply _. Defined.

(** What a row adds to [get_order_payment_total] of an order. *)
Definition contribution (order_uuid : uuid) (r : payment_row) : numeric :=
  if decide (confirmed_for order_uuid r) then amount r else 0.

End Server.

End Db.

(** ** JavaScript numbers and the wire *)

Module Js.

Abbreviation number := float (only parsing).

(** [a <= b], [a > b], [a >= b]: false whenever an operand is NaN. *)
Definition le (a b : number) : bool := (a <=? b)%float.
Definition gt (a b : number) : bool := (b <? a)%float.
Definition ge (a b : number) : bool := (b <=? a)%float.

(** [Math.max(a, b)]: NaN if an operand is NaN, and +0 above -0. *)
Definition Math_max (a b : number) : number :=
  if is_nan a || is_nan b then nan
  else if (a <? b)%float then b
  else if (b <? a)%float then a
  else match classify a with
       | NZero => b
       | _ => a
       end.

(** The double nearest to an integer. *)
Definition of_Z (z : Z) : number :=
  SF2Prim (binary_normalize prec emax z 0 false).

(** A [numeric(10,2)] value arrives as a JSON number with two decimals and
    is parsed to the nearest double.  For [c] centavos that is the quotient
    of the doubles [c] and [100], rounded once: exact for every amount the
    column can hold (|c| < 10^10 < 2^53). *)
Definition of_numeric (c : Z) : number := (of_Z c / of_Z 100)%float.

(** A number leaves as JSON: [JSON.stringify] writes the shortest decimal
    that reads back as the same double, and the [numeric(10,2)] column
    rounds that decimal to two places, halves away from zero.

    [centavos m e x] is the result for the magnitude [m * 2^e] of [x].  The
    exact value lies between [q] and [q + 1] centavos.  It goes up when it is
    at or above the half; it also goes up when it is just below the half but
    [x] is the double nearest to that half [(2q+1)/200], because the shortest
    decimal of [x] is then that half itself (10.005 is sent as "10.005" and
    stored as 10.01).  Decimals of at most 15 digits map to distinct doubles,
    so no other case differs from rounding the exact value; this covers all
    magnitudes below 10^8 units, above which the column overflows anyway. *)
Definition centavos (m : positive) (e : Z) (x : number) : Z :=
  let N := 100 * Z.pos m in
  if bool_decide (0 ≤ e) then N * 2 ^ e
  else
    let den := 2 ^ (- e) in
    let q := N `div` den in
    let rem := N `mod` den in
    if bool_decide (den ≤ 2 * rem) then q + 1
    else if (abs x =? of_Z (2 * q + 1) / of_Z 200)%float then q + 1
    else q.

(** [None] is JSON [null]: [JSON.stringify] writes NaN and the infinities
    so. *)
Definition to_numeric (x : number) : option Z :=
  match Prim2SF x with
  | S754_zero _ => Some 0
  | S754_infinity _ | S754_nan => None
  | S754_finite s m e => Some (if s then - centavos m e x else centavos m e x)
  end.

End Js.

(** ** The hook [useMixedPayment] *)

Module Hook.

(** [PaymentPartial], as the rows of [select('*')] fill it. *)
Record PaymentPartial : Type := {
  id : string;
  payment_type : Db.payment_type_enum;
  amount : Js.number;
  status : option Db.payment_status_enum;
  notes : option string;
  created_at : option Z
}.

Record MixedPaymentData : Type := {
  order_id : string;
  order_total : Js.number;
  payments : list PaymentPartial;
  total_paid : Js.number;
  remaining_amount : Js.number;
  is_fully_paid : bool
}.

Record PaymentFormData : Type := {
  form_payment_type : Db.payment_type_enum;
  form_amount : Js.number;
  form_notes : option string
}.

Record PaymentSummary : Type := {
  dinheiro : Js.number;
  pix : Js.number;
  cartao_credito : Js.number;
  cartao_debito : Js.number;
  voucher : Js.number;
  total : Js.number
}.

Record validation : Type := {
  isValid : bool;
  message : option string
}.

(** The two pieces of React state. *)
Record hook_state : Type := {
  loading : bool;
  error : option string
}.

Definition setLoading (b : bool) (h : hook_state) : hook_state :=
  {| loading := b; error := error h |}.

Definition setError (e : option string) (h : hook_state) : hook_state :=
  {| loading := loading h; error := e |}.

(** What a [catch (err)] receives: an [Error] with its message, or any other
    value. *)
Inductive thrown : Type :=
  | Error (msg : string)
  | NotAnError.

(** [err instanceof Error ? err.message : fallback] *)
Definition message_of (err : thrown) (fallback : string) : string :=
  match err with
  | Error msg => msg
  | NotAnError => fallback
  end.

(** The [{ data, error }] a supabase call resolves to. *)
Record response (A : Type) : Type := {
  data : option A;
  resp_error : option thrown
}.
Arguments data {A} r.
Arguments resp_error {A} r.

Definition failed {A : Type} (e : thrown) : response A :=
  {| data := None; resp_error := Some e |}.

Definition succeeded {A : Type} (a : A) : response A :=
  {| data := Some a; resp_error := None |}.

(** A row as the client receives it: the amount is a JSON number. *)
Definition to_PaymentPartial (kr : string * Db.payment_row) : PaymentPartial :=
  {| id := kr.1;
     payment_type := Db.payment_type kr.2;
     amount := Js.of_numeric (Db.amount kr.2);
     status := Db.status kr.2;
     notes := Db.notes kr.2;
     created_at := Db.created_at kr.2 |}.

(** The object [addPaymentPartial] gives to [insert]. *)
Record insert_body : Type := {
  body_order_id : string;
  body_payment_type : Db.payment_type_enum;
  body_amount : Js.number;
  body_notes : option string;
  body_status : Db.payment_status_enum
}.

(** The values the INSERT receives for it; [None] when the amount arrives
    as [null]. *)
Definition wire (b : insert_body) : option Db.insert_values :=
  match Js.to_numeric (body_amount b) with
  | Some c =>
      Some {| Db.ins_order_id := body_order_id b;
              Db.ins_payment_type := body_payment_type b;
              Db.ins_amount := c;
              Db.ins_status := Some (body_status b);
              Db.ins_notes := body_notes b |}
  | None => None
  end.

(** [ORDER BY created_at ASC]; PostgreSQL puts NULLs last. *)
Definition created_le (p q : PaymentPartial) : Prop :=
  match created_at p, created_at q with
  | Some a, Some b => a ≤ b
  | _, None => True
  | None, Some _ => False
  end.

#[global] Instance created_le_dec : RelDecision created_le.
Proof.
  intros p q. unfold created_le.
  destruct (created_at p), (created_at q); apply _.
Defined.

Section Client.
Context {Other : Type}.

(** [Intl.NumberFormat('pt-BR', ...).format] belongs to the JavaScript
    runtime, and the shape of the errors the supabase client reports for a
    statement the database refuses belongs to that library. *)
Variable formatPrice : Js.number → string.
Variable pg_thrown : Db.pg_error → thrown.

(** The hook's state together with the database it talks to. *)
Record world : Type := {
  hook : hook_state;
  remote : Db.database Other
}.

Definition with_hook (f : hook_state → hook_state) (w : world) : world :=
  {| hook := f (hook w); remote := remote w |}.

Definition with_remote (d : Db.database Other) (w : world) : world :=
  {| hook := hook w; remote := d |}.

(** *** The supabase calls the hook makes

    [net] is [Some e] when the request itself fails with [e]; the statement
    is then not run. *)

(** [.from('pdv_order_payments').select('*').eq('order_id', orderId)
     .order('created_at', { ascending: true })] *)
Definition select_order_payments (net : option thrown) (orderId : string)
    (d : Db.database Other) : response (list PaymentPartial) :=
  match net with
  | Some e => failed e
  | None =>
      succeeded
        (merge_sort created_le
           (to_PaymentPartial <$>
              filter (λ kr, Db.order_id kr.2 = orderId)
                     (map_to_list (Db.pdv_order_payments d))))
  end.

(** [.from('pdv_order_payments').insert([b]).select().single()]: a [null]
    amount is refused by the NOT NULL column. *)
Definition insert_single (net : option thrown) (now : Z) (gen_random_uuid : string)
    (b : insert_body) (d : Db.database Other)
    : response PaymentPartial * Db.database Other :=
  match net with
  | Some e => (failed e, d)
  | None =>
      match wire b with
      | None => (failed (pg_thrown Db.not_null_violation), d)
      | Some v =>
          match Db.insert_payment now gen_random_uuid v d with
          | Db.PgOk (d', kr) => (succeeded (to_PaymentPartial kr), d')
          | Db.PgError e => (failed (pg_thrown e), d)
          end
      end
  end.

(** [.from('pdv_order_payments').delete().eq('id', paymentId)] *)
Definition delete_by_id (net : option thrown) (paymentId : string)
    (d : Db.database Other) : response unit * Db.database Other :=
  match net with
  | Some e => (failed e, d)
  | None => (succeeded (), Db.delete_payment paymentId d)
  end.

(** [.rpc('is_order_fully_paid', { order_uuid: orderId })] *)
Definition rpc_is_order_fully_paid (net : option thrown) (orderId : string)
    (d : Db.database Other) : response bool :=
  match net with
  | Some e => failed e
  | None => succeeded (Db.is_order_fully_paid d orderId)
  end.

(** *** The hook's functions *)

Definition getOrderPayments (net : option thrown) (orderId : string) (w : world)
    : list PaymentPartial * world :=
  let w := with_hook (setError None) w in
  let r := select_order_payments net orderId (remote w) in
  match resp_error r with
  | Some err =>
      ([], with_hook (setError (Some (message_of err "Erro ao buscar pagamentos"))) w)
  | None =>
      (match data r with Some l => l | None => [] end, w)
  end.

Definition body (orderId : string) (paymentData : PaymentFormData) : insert_body :=
  {| body_order_id := orderId;
     body_payment_type := form_payment_type paymentData;
     body_amount := form_amount paymentData;
     body_notes := form_notes paymentData;
     body_status := Db.confirmed |}.

Definition addPaymentPartial (net : option thrown) (now : Z) (gen_random_uuid : string)
    (orderId : string) (paymentData : PaymentFormData) (w : world)
    : option PaymentPartial * world :=
  let w := with_hook (setLoading true) w in
  let w := with_hook (setError None) w in
  let '(r, d) :=
    insert_single net now gen_random_uuid (body orderId paymentData) (remote w) in
  let w := with_remote d w in
  let '(result, w) :=
    match resp_error r with
    | Some err =>
        (None, with_hook (setError (Some (message_of err "Erro ao adicionar pagamento"))) w)
    | None => (data r, w)
    end in
  (result, with_hook (setLoading false) w).

Definition removePaymentPartial (net : option thrown) (paymentId : string) (w : world)
    : bool * world :=
  let w := with_hook (setLoading true) w in
  let w := with_hook (setError None) w in
  let '(r, d) := delete_by_id net paymentId (remote w) in
  let w := with_remote d w in
  let '(result, w) :=
    match resp_error r with
    | Some err =>
        (false, with_hook (setError (Some (message_of err "Erro ao remover pagamento"))) w)
    | None => (true, w)
    end in
  (result, with_hook (setLoading false) w).

Definition getMixedPaymentData (net : option thrown) (orderId : string)
    (orderTotal : Js.number) (w : world) : MixedPaymentData * world :=
  let '(payments, w) := getOrderPayments net orderId w in
  let totalPaid := foldl (λ sum payment, (sum + amount payment)%float) 0%float payments in
  let remainingAmount := Js.Math_max 0 (orderTotal - totalPaid) in
  let isFullyPaid := Js.ge totalPaid orderTotal in
  ({| order_id := orderId;
      order_total := orderTotal;
      payments := payments;
      total_paid := totalPaid;
      remaining_amount := remainingAmount;
      is_fully_paid := isFullyPaid |}, w).

(** [summary[payment.payment_type] += payment.amount] *)
Definition add_to (t : Db.payment_type_enum) (a : Js.number) (s : PaymentSummary)
    : PaymentSummary :=
  match t with
  | Db.dinheiro =>
      {| dinheiro := dinheiro s + a; pix := pix s; cartao_credito := cartao_credito s;
         cartao_debito := cartao_debito s; voucher := voucher s; total := total s |}
  | Db.pix =>
      {| dinheiro := dinheiro s; pix := pix s + a; cartao_credito := cartao_credito s;
         cartao_debito := cartao_debito s; voucher := voucher s; total := total s |}
  | Db.cartao_credito =>
      {| dinheiro := dinheiro s; pix := pix s; cartao_credito := cartao_credito s + a;
         cartao_debito := cartao_debito s; voucher := voucher s; total := total s |}
  | Db.cartao_debito =>
      {| dinheiro := dinheiro s; pix := pix s; cartao_credito := cartao_credito s;
         cartao_debito := cartao_debito s + a; voucher := voucher s; total := total s |}
  | Db.voucher =>
      {| dinheiro := dinheiro s; pix := pix s; cartao_credito := cartao_credito s;
         cartao_debito := cartao_debito s; voucher := voucher s + a; total := total s |}
  end%float.

Definition add_to_total (a : Js.number) (s : PaymentSummary) : PaymentSummary :=
  {| dinheiro := dinheiro s; pix := pix s; cartao_credito := cartao_credito s;
     cartao_debito := cartao_debito s; voucher := voucher s;
     total := (total s + a)%float |}.

(** [summary[method]], read. *)
Definition by_method (t : Db.payment_type_enum) (s : PaymentSummary) : Js.number :=
  match t with
  | Db.dinheiro => dinheiro s
  | Db.pix => pix s
  | Db.cartao_credito => cartao_credito s
  | Db.cartao_debito => cartao_debito s
  | Db.voucher => voucher s
  end.

(** The amounts of the given payments added up from 0 in list order, as
    [+=] does. *)
Definition added_up (payments : list PaymentPartial) : Js.number :=
  foldl (λ sum payment, (sum + amount payment)%float) 0%float payments.

Definition getPaymentSummary (payments : list PaymentPartial) : PaymentSummary :=
  let summary :=
    {| dinheiro := 0; pix := 0; cartao_credito := 0; cartao_debito := 0;
       voucher := 0; total := 0 |}%float in
  foldl (λ summary payment,
           if decide (status payment = Some Db.confirmed) then
             add_to_total (amount payment)
               (add_to (payment_type payment) (amount payment) summary)
           else summary)
        summary payments.

Definition validatePaymentAmount (amount currentTotal orderTotal : Js.number)
    : validation :=
  if Js.le amount 0 then
    {| isValid := false; message := Some "Valor deve ser maior que zero" |}
  else if Js.gt (currentTotal + amount) orderTotal then
    let maxAmount := (orderTotal - currentTotal)%float in
    {| isValid := false;
       message := Some ("Valor máximo permitido: " +:+ formatPrice maxAmount) |}
  else
    {| isValid := true; message := None |}.

Definition isOrderFullyPaid (net : option thrown) (orderId : string) (w : world) : bool :=
  let r := rpc_is_order_fully_paid net orderId (remote w) in
  match resp_error r with
  | Some err => false
  | None => match data r with Some b => b | None => false end
  end.

End Client.

End Hook.

(** ** A ledger to run the definitions on

    The scenario of the specification: one order of 100,00. *)

Module Scenario.

Definition sale : Db.sale_row unit :=
  {| Db.total_amount := Some 10000; Db.sale_updated_at := 0; Db.sale_other := () |}.

Definition empty_ledger : Db.database unit :=
  {| Db.pdv_sales := {[ "o1"%string := sale ]}; Db.pdv_order_payments := ∅ |}.

Definition idle : Hook.hook_state :=
  {| Hook.loading := false; Hook.error := None |}.

Definition on (d : Db.database unit) : Hook.world :=
  {| Hook.hook := idle; Hook.remote := d |}.

(** A client whose database errors are plain objects. *)
Definition pg_thrown (e : Db.pg_error) : Hook.thrown := Hook.NotAnError.

(** The numbers 40, 60 and 100 of the scenario. *)
Definition pix40 : Hook.PaymentFormData :=
  {| Hook.form_payment_type := Db.pix; Hook.form_amount := 40; Hook.form_notes := None |}.

Definition dinheiro60 : Hook.PaymentFormData :=
  {| Hook.form_payment_type := Db.dinheiro; Hook.form_amount := 60; Hook.form_notes := None |}.

(** After [pix40] at time 5, and after [dinheiro60] at time 7. *)
Definition after_pix : Hook.world :=
  (Hook.addPaymentPartial pg_thrown None 5 "p1" "o1" pix40 (on empty_ledger)).2.

Definition after_dinheiro : Hook.world :=
  (Hook.addPaymentPartial pg_thrown None 7 "p2" "o1" dinheiro60 after_pix).2.

(** The INSERTs the server ran for them. *)
Definition pix40_values : Db.insert_values :=
  {| Db.ins_order_id := "o1"; Db.ins_payment_type := Db.pix; Db.ins_amount := 4000;
     Db.ins_status := Some Db.confirmed; Db.ins_notes := None |}.

Definition dinheiro60_values : Db.insert_values :=
  {| Db.ins_order_id := "o1"; Db.ins_payment_type := Db.dinheiro; Db.ins_amount := 6000;
     Db.ins_status := Some Db.confirmed; Db.ins_notes := None |}.

(** A payment of the whole total that is still pending, as a statement other
    than the hook's may insert it. *)
Definition pending_values : Db.insert_values :=
  {| Db.ins_order_id := "o1"; Db.ins_payment_type := Db.pix; Db.ins_amount := 10000;
     Db.ins_status := Some Db.pending; Db.ins_notes := None |}.

Definition pending_row : Db.payment_row :=
  {| Db.order_id := "o1"; Db.payment_type := Db.pix; Db.amount := 10000;
     Db.status := Some Db.pending; Db.notes := None;
     Db.created_at := Some 1; Db.updated_at := Some 1 |}.

Definition pending_ledger : Db.database unit :=
  Db.write_row "p1" pending_row empty_ledger.

(** [SET status = 'cancelled'] and [SET amount = 100.00] *)
Definition cancel (r : Db.payment_row) : Db.payment_row :=
  {| Db.order_id := Db.order_id r; Db.payment_type := Db.payment_type r;
     Db.amount := Db.amount r; Db.status := Some Db.cancelled;
     Db.notes := Db.notes r; Db.created_at := Db.created_at r;
     Db.updated_at := Db.updated_at r |}.

Definition set_amount_100 (r : Db.payment_row) : Db.payment_row :=
  {| Db.order_id := Db.order_id r; Db.payment_type := Db.payment_type r;
     Db.amount := 10000; Db.status := Db.status r;
     Db.notes := Db.notes r; Db.created_at := Db.created_at r;
     Db.updated_at := Db.updated_at r |}.

(** An order of 0,80 paid by confirmed payments of 0,10 and 0,70. *)
Definition cents_ledger : Db.database unit :=
  {| Db.pdv_sales :=
       {[ "o3"%string :=
            {| Db.total_amount := Some 80; Db.sale_updated_at := 0; Db.sale_other := () |} ]};
     Db.pdv_order_payments :=
       {[ "c1"%string :=
            {| Db.order_id := "o3"; Db.payment_type := Db.dinheiro; Db.amount := 10;
               Db.status := Some Db.confirmed; Db.notes := None;
               Db.created_at := Some 1; Db.updated_at := Some 1 |};
          "c2"%string :=
            {| Db.order_id := "o3"; Db.payment_type := Db.pix; Db.amount := 70;
               Db.status := Some Db.confirmed; Db.notes := None;
               Db.created_at := Some 2; Db.updated_at := Some 2 |} ]} |}.

End Scenario.

(** Closed facts about the scenario are settled by running the definitions. *)
Ltac by_running := vm_compute; reflexivity.

(** ** Facts about doubles *)

Section Doubles.
Implicit Types (x y : float) (f g : spec_float).

Lemma SFcompare_antisym f g :
  SFcompare g f = CompOpp <$> SFcompare f g.
Proof.
  destruct f as [sf|sf| |sf mf ef], g as [sg|sg| |sg mg eg];
    try reflexivity;
    try (destruct sf; reflexivity);
    try (destruct sg; reflexivity);
    try (destruct sf, sg; reflexivity).
  simpl. destruct sf, sg; try reflexivity; csimpl;
    rewrite (Z.compare_antisym ef eg);
    destruct (ef ?= eg)%Z; try reflexivity; simpl;
    rewrite (Pos.compare_cont_antisym mf mg Eq); simpl;
    now rewrite ?CompOpp_involutive.
Qed.

(** [y < x] and [x <= y] never hold together. *)
Lemma ltb_leb_false x y : (y <? x)%float = true → (x <=? y)%float = false.
Proof.
  rewrite ltb_spec, leb_spec. unfold SFltb, SFleb.
  rewrite (SFcompare_antisym (Prim2SF y) (Prim2SF x)).
  destruct (SFcompare (Prim2SF y) (Prim2SF x)) as [[]|]; simpl; congruence.
Qed.


Lemma ltb_antisym x y : (x <? y)%float = true → (y <? x)%float = false.
Proof.
  rewrite !ltb_spec. unfold SFltb. rewrite (SFcompare_antisym (Prim2SF x) (Prim2SF y)).
  destruct (SFcompare (Prim2SF x) (Prim2SF y)) as [[]|]; simpl; congruence.
Qed.

Lemma Prim2SF_inj x y : Prim2SF x = Prim2SF y → x = y.
Proof. intros H. rewrite <- (SF2Prim_Prim2SF x), <- (SF2Prim_Prim2SF y). now rewrite H. Qed.

(** [x - 0] is [x] for a positive [x]. *)
Lemma sub_zero_pos x : (0 <? x)%float = true → (x - 0)%float = x.
Proof.
  intros Hpos. apply Prim2SF_inj. rewrite sub_spec.
  rewrite ltb_spec in Hpos. unfold SFltb in Hpos.
  change (Prim2SF 0) with (S754_zero false) in *.
  destruct (Prim2SF x) as [s|s| |s m e]; try discriminate; reflexivity.
Qed.

Lemma pos_not_nan x : (0 <? x)%float = true → is_nan x = false.
Proof.
  intros Hpos. unfold is_nan. rewrite FloatAxioms.eqb_spec.
  rewrite ltb_spec in Hpos. unfold SFltb in Hpos.
  change (Prim2SF 0) with (S754_zero false) in *.
  unfold SFeqb.
  destruct (Prim2SF x) as [s|s| |s m e]; try discriminate.
  - destruct s; reflexivity.
  - simpl. destruct s; rewrite Z.compare_refl, Pos.compare_cont_refl; reflexivity.
Qed.

(** [Math.max(0, x)] is never below 0. *)
Lemma Math_max_0_not_negative x : (Js.Math_max 0 x <? 0)%float = false.
Proof.
  unfold Js.Math_max.
  destruct (is_nan 0 || is_nan x); [reflexivity|].
  destruct (0 <? x)%float eqn:Hpos; [now apply ltb_antisym|].
  destruct (x <? 0)%float; reflexivity.
Qed.

Lemma Math_max_0_pos x : (0 <? x)%float = true → Js.Math_max 0 x = x.
Proof.
  intros Hpos. unfold Js.Math_max.
  rewrite (pos_not_nan x Hpos). simpl. now rewrite Hpos.
Qed.

Lemma centavos_nonneg m e x : 0 ≤ Js.centavos m e x.
Proof.
  unfold Js.centavos.
  case_bool_decide; [apply Z.mul_nonneg_nonneg; [lia|apply Z.pow_nonneg; lia]|].
  assert (0 < 2 ^ (- e)) by (apply Z.pow_pos_nonneg; lia).
  assert (0 ≤ (100 * Z.pos m) `div` 2 ^ (- e)) by (apply Z.div_pos; lia).
  case_bool_decide; [lia|].
  destruct (_ =? _)%float; lia.
Qed.

(** A number that is [<= 0] is sent as [null] or as an amount that is not
    positive. *)
Lemma to_numeric_not_positive x c :
  (x <=? 0)%float = true → Js.to_numeric x = Some c → c ≤ 0.
Proof.
  rewrite leb_spec. unfold SFleb, Js.to_numeric.
  change (Prim2SF 0) with (S754_zero false).
  destruct (Prim2SF x) as [s|s| |s m e]; try discriminate.
  - intros _ [= <-]. lia.
  - simpl. destruct s; [|discriminate].
    intros _ [= <-]. pose proof (centavos_nonneg m e x). lia.
Qed.

End Doubles.

(** ** Sums of amounts *)

Section Sums.

Lemma COALESCE_SUM (l : list Z) : Db.COALESCE (Db.SUM l) 0 = foldr Z.add 0 l.
Proof. destruct l; reflexivity. Qed.

Lemma foldr_add_Permutation (l1 l2 : list Z) :
  l1 ≡ₚ l2 → foldr Z.add 0 l1 = foldr Z.add 0 l2.
Proof.
  induction 1 as [|x l l' _ IH|x y l|l l' l'' _ IH1 _ IH2]; simpl.
  - reflexivity.
  - now rewrite IH.
  - lia.
  - congruence.
Qed.

End Sums.

(** ** The ledger rule on the server *)

Section ServerFacts.
Context {Other : Type}.
Implicit Types (d : Db.database Other) (r : Db.payment_row).

Lemma get_order_payment_total_sum d order_uuid :
  Db.get_order_payment_total d order_uuid
  = foldr Z.add 0 (Db.amount <$> filter (Db.confirmed_for order_uuid) (Db.rows d)).
Proof. unfold Db.get_order_payment_total. apply COALESCE_SUM. Qed.

Lemma rows_write_fresh d k r :
  Db.pdv_order_payments d !! k = None →
  Db.rows (Db.write_row k r d) ≡ₚ r :: Db.rows d.
Proof.
  intros Hk. unfold Db.rows, Db.write_row; simpl.
  now rewrite (map_to_list_insert _ _ _ Hk).
Qed.

Lemma rows_delete d k r :
  Db.pdv_order_payments d !! k = Some r →
  Db.rows d ≡ₚ r :: Db.rows (Db.delete_payment k d).
Proof.
  intros Hk. unfold Db.rows, Db.delete_payment; simpl.
  now rewrite <- (map_to_list_delete _ _ _ Hk).
Qed.

(** A new row of the order adds its amount to the total when it is confirmed,
    and nothing otherwise. *)
Lemma get_order_payment_total_write_fresh d k r order_uuid :
  Db.pdv_order_payments d !! k = None →
  Db.get_order_payment_total (Db.write_row k r d) order_uuid
  = (if decide (Db.confirmed_for order_uuid r) then Db.amount r else 0)
    + Db.get_order_payment_total d order_uuid.
Proof.
  intros Hk. rewrite !get_order_payment_total_sum.
  rewrite (foldr_add_Permutation _
             (Db.amount <$> filter (Db.confirmed_for order_uuid) (r :: Db.rows d))).
  - rewrite filter_cons. destruct (decide (Db.confirmed_for order_uuid r)); csimpl; lia.
  - now rewrite (rows_write_fresh d k r Hk).
Qed.

Lemma get_order_payment_total_delete d k r order_uuid :
  Db.pdv_order_payments d !! k = Some r →
  Db.get_order_payment_total (Db.delete_payment k d) order_uuid
  = Db.get_order_payment_total d order_uuid
    - (if decide (Db.confirmed_for order_uuid r) then Db.amount r else 0).
Proof.
  intros Hk. rewrite !get_order_payment_total_sum.
  rewrite (foldr_add_Permutation
             (Db.amount <$> filter (Db.confirmed_for order_uuid) (Db.rows d))
             (Db.amount <$> filter (Db.confirmed_for order_uuid)
                (r :: Db.rows (Db.delete_payment k d)))).
  - rewrite filter_cons. destruct (decide (Db.confirmed_for order_uuid r)); csimpl; lia.
  - now rewrite (rows_delete d k r Hk).
Qed.

(** Rows that are pending, cancelled or without status never count on the
    server. *)
Lemma get_order_payment_total_skips_unconfirmed d k r order_uuid :
  Db.pdv_order_payments d !! k = None →
  Db.status r ≠ Some Db.confirmed →
  Db.get_order_payment_total (Db.write_row k r d) order_uuid
  = Db.get_order_payment_total d order_uuid.
Proof.
  intros Hk Hs. rewrite get_order_payment_total_write_fresh by assumption.
  rewrite decide_False; [lia|]. now intros [_ ?].
Qed.

Lemma is_order_fully_paid_spec d order_uuid :
  Db.is_order_fully_paid d order_uuid = true ↔
  Db.get_order_payment_total d order_uuid
  >= Db.COALESCE (Db.pdv_sales d !! order_uuid ≫= Db.total_amount) 0.
Proof. unfold Db.is_order_fully_paid; simpl. apply bool_decide_eq_true. Qed.

End ServerFacts.

(** ** The aggregation in the hook *)

Section ClientFacts.
Context {Other : Type}.
Implicit Types (w : Hook.world (Other:=Other)) (l : list Hook.PaymentPartial).

Lemma filter_fmap_comm {A B : Type} (f : A → B) (P : B → Prop)
    `{!∀ y, Decision (P y)} (l : list A) :
  filter P (f <$> l) = f <$> filter (λ x, P (f x)) l.
Proof.
  induction l as [|x l IH]; csimpl; [reflexivity|].
  rewrite !filter_cons. destruct (decide (P (f x))); csimpl; now rewrite IH.
Qed.

(** The rows [getOrderPayments] returns on success: every row of the order,
    whatever its status. *)
Lemma getOrderPayments_rows orderId w :
  (Hook.getOrderPayments None orderId w).1
  ≡ₚ Hook.to_PaymentPartial <$>
       filter (λ kr, Db.order_id kr.2 = orderId)
              (map_to_list (Db.pdv_order_payments (Hook.remote w))).
Proof. unfold Hook.getOrderPayments; simpl. apply merge_sort_Permutation. Qed.

(** [total_paid] adds up every fetched payment: the reduction does not look
    at [status]. *)
Lemma total_paid_added_up net orderId orderTotal w :
  Hook.total_paid (Hook.getMixedPaymentData net orderId orderTotal w).1
  = Hook.added_up (Hook.getOrderPayments net orderId w).1.
Proof.
  unfold Hook.getMixedPaymentData.
  destruct (Hook.getOrderPayments net orderId w) as [l w']. reflexivity.
Qed.

(** What the [forEach] of [getPaymentSummary] does to [total] and to the
    subtotal of a method: it goes on adding, in list order, the amounts of
    the confirmed payments (of that method). *)
Lemma forEach_total (s : Hook.PaymentSummary) l :
  Hook.total
    (foldl (λ summary payment,
              if decide (Hook.status payment = Some Db.confirmed) then
                Hook.add_to_total (Hook.amount payment)
                  (Hook.add_to (Hook.payment_type payment) (Hook.amount payment) summary)
              else summary) s l)
  = foldl (λ sum payment, (sum + Hook.amount payment)%float) (Hook.total s)
      (filter (λ p, Hook.status p = Some Db.confirmed) l).
Proof.
  revert s. induction l as [|p l IH]; intros s; simpl; [reflexivity|].
  rewrite IH, filter_cons.
  destruct (decide (Hook.status p = Some Db.confirmed)); [|reflexivity].
  simpl. destruct (Hook.payment_type p); reflexivity.
Qed.

Lemma forEach_by_method t (s : Hook.PaymentSummary) l :
  Hook.by_method t
    (foldl (λ summary payment,
              if decide (Hook.status payment = Some Db.confirmed) then
                Hook.add_to_total (Hook.amount payment)
                  (Hook.add_to (Hook.payment_type payment) (Hook.amount payment) summary)
              else summary) s l)
  = foldl (λ sum payment, (sum + Hook.amount payment)%float) (Hook.by_method t s)
      (filter (λ p, Hook.status p = Some Db.confirmed ∧ Hook.payment_type p = t) l).
Proof.
  revert s. induction l as [|p l IH]; intros s; simpl; [reflexivity|].
  rewrite IH, filter_cons. clear IH.
  destruct (decide (Hook.status p = Some Db.confirmed)) as [Hs|Hs].
  - destruct (decide (Hook.payment_type p = t)) as [Ht|Ht].
    + rewrite decide_True by (now split). simpl.
      subst t. destruct (Hook.payment_type p); reflexivity.
    + rewrite decide_False by (now intros [_ ?]).
      destruct (Hook.payment_type p), t; try reflexivity; congruence.
  - rewrite decide_False by (now intros [? _]). reflexivity.
Qed.

Lemma getPaymentSummary_total l :
  Hook.total (Hook.getPaymentSummary l)
  = Hook.added_up (filter (λ p, Hook.status p = Some Db.confirmed) l).
Proof. unfold Hook.getPaymentSummary. now rewrite forEach_total. Qed.

Lemma getPaymentSummary_by_method t l :
  Hook.by_method t (Hook.getPaymentSummary l)
  = Hook.added_up
      (filter (λ p, Hook.status p = Some Db.confirmed ∧ Hook.payment_type p = t) l).
Proof.
  unfold Hook.getPaymentSummary. rewrite forEach_by_method. now destruct t.
Qed.

Lemma PaymentSummary_eq (s1 s2 : Hook.PaymentSummary) :
  (∀ t, Hook.by_method t s1 = Hook.by_method t s2) →
  Hook.total s1 = Hook.total s2 → s1 = s2.
Proof.
  intros Hm Ht. destruct s1, s2; simpl in *.
  pose proof (Hm Db.dinheiro). pose proof (Hm Db.pix).
  pose proof (Hm Db.cartao_credito). pose proof (Hm Db.cartao_debito).
  pose proof (Hm Db.voucher). simpl in *. congruence.
Qed.

End ClientFacts.

(** ** The ledger rule: paid total, remaining amount, fully-paid flag *)

(** C1, at the input where the hook departs from it: a payment of the whole
    total that is still pending is accepted by the table; the server's
    [get_order_payment_total] leaves it out (0, order not paid) and so does
    [getPaymentSummary], but [getMixedPaymentData] adds it to [total_paid] and
    reports the order as fully paid. *)
Theorem getMixedPaymentData_counts_pending :
  Db.insert_payment 1 "p1" Scenario.pending_values Scenario.empty_ledger
    = Db.PgOk (Scenario.pending_ledger, ("p1"%string, Scenario.pending_row)) ∧
  Db.get_order_payment_total Scenario.pending_ledger "o1" = 0 ∧
  Db.is_order_fully_paid Scenario.pending_ledger "o1" = false ∧
  (let m := (Hook.getMixedPaymentData None "o1" 100
               (Scenario.on Scenario.pending_ledger)).1 in
   Hook.total_paid m = 100%float ∧
   Hook.remaining_amount m = 0%float ∧
   Hook.is_fully_paid m = true ∧
   Hook.total (Hook.getPaymentSummary (Hook.payments m)) = 0%float).
Proof. repeat split; by_running. Qed.

(** C2.  On the server the rule holds: with order total T,
    [is_order_fully_paid] is true exactly when the paid total is at least T.
    In the hook it does not: on the order of 100,00 whose only payment is
    pending the paid total is 0, the server answers not paid, and
    [getMixedPaymentData] reports [is_fully_paid] true. *)
Theorem is_fully_paid_counts_pending :
  (∀ (Other : Type) (d : Db.database Other) (order_uuid : string) (T : Z),
     Db.pdv_sales d !! order_uuid ≫= Db.total_amount = Some T →
     (Db.is_order_fully_paid d order_uuid = true
      ↔ Db.get_order_payment_total d order_uuid >= T)) ∧
  Db.pdv_sales Scenario.pending_ledger !! "o1"%string ≫= Db.total_amount = Some 10000 ∧
  Db.get_order_payment_total Scenario.pending_ledger "o1" = 0 ∧
  Db.is_order_fully_paid Scenario.pending_ledger "o1" = false ∧
  Hook.is_fully_paid
    (Hook.getMixedPaymentData None "o1" 100 (Scenario.on Scenario.pending_ledger)).1
  = true.
Proof.
  split.
  - intros Other d order_uuid T HT. rewrite is_order_fully_paid_spec, HT. reflexivity.
  - repeat split; by_running.
Qed.

(** C3.  The hook's remaining amount is [Math.max(0, orderTotal - total_paid)]
    of its own [total_paid] and is never below 0; but it is not max(0, T - P)
    of the order's paid total P: on the order of 100,00 whose only payment is
    pending, P is 0 and the remaining amount reported is 0, not 100. *)
Theorem remaining_amount_counts_pending :
  (∀ (Other : Type) (net : option Hook.thrown) (orderId : string)
     (orderTotal : float) (w : Hook.world (Other:=Other)),
     let m := (Hook.getMixedPaymentData net orderId orderTotal w).1 in
     Hook.remaining_amount m = Js.Math_max 0 (orderTotal - Hook.total_paid m) ∧
     (Hook.remaining_amount m <? 0)%float = false) ∧
  Db.get_order_payment_total Scenario.pending_ledger "o1" = 0 ∧
  Js.Math_max 0
    (100 - Js.of_numeric (Db.get_order_payment_total Scenario.pending_ledger "o1"))
  = 100%float ∧
  Hook.remaining_amount
    (Hook.getMixedPaymentData None "o1" 100 (Scenario.on Scenario.pending_ledger)).1
  = 0%float.
Proof.
  split.
  - intros Other net orderId orderTotal w.
    unfold Hook.getMixedPaymentData.
    destruct (Hook.getOrderPayments net orderId w) as [l w']; simpl.
    split; [reflexivity|apply Math_max_0_not_negative].
  - repeat split; by_running.
Qed.

(** With doubles the hook can also miss an order paid to the centavo: 0,10
    and 0,70, both confirmed, on an order of 0,80.  The server's total is
    0,80 and the order is paid; the hook's sum falls short of 0,80, leaves a
    positive remaining amount and reports the order as not fully paid. *)
Example exactly_paid_order_reported_unpaid :
  Db.get_order_payment_total Scenario.cents_ledger "o3" = 80 ∧
  Db.is_order_fully_paid Scenario.cents_ledger "o3" = true ∧
  (let m := (Hook.getMixedPaymentData None "o3" (Js.of_numeric 80)
               (Scenario.on Scenario.cents_ledger)).1 in
   Hook.total_paid m = (Js.of_numeric 10 + Js.of_numeric 70)%float ∧
   (Hook.total_paid m <? Js.of_numeric 80)%float = true ∧
   (0 <? Hook.remaining_amount m)%float = true ∧
   Hook.is_fully_paid m = false).
Proof. repeat split; by_running. Qed.

(** C8: for an order id with no row in [pdv_sales] the total is NULL and is
    read as 0, so [is_order_fully_paid] holds exactly when the paid total is
    at least 0, in particular for any positive paid total. *)
Theorem missing_order_counts_as_paid {Other : Type} (d : Db.database Other)
    (order_uuid : string) :
  Db.pdv_sales d !! order_uuid = None →
  (Db.is_order_fully_paid d order_uuid = true
   ↔ Db.get_order_payment_total d order_uuid >= 0) ∧
  (Db.get_order_payment_total d order_uuid > 0 →
   Db.is_order_fully_paid d order_uuid = true).
Proof.
  intros Hnone.
  assert (Db.is_order_fully_paid d order_uuid = true
          ↔ Db.get_order_payment_total d order_uuid >= 0) as Hiff.
  { rewrite is_order_fully_paid_spec, Hnone. reflexivity. }
  split; [exact Hiff|]. intros Hpos. apply Hiff. lia.
Qed.

Lemma missing_order_counts_as_paid_scenario :
  (Db.is_order_fully_paid (Hook.remote Scenario.after_pix) "o2" = true
   ↔ Db.get_order_payment_total (Hook.remote Scenario.after_pix) "o2" >= 0) ∧
  (Db.get_order_payment_total (Hook.remote Scenario.after_pix) "o2" > 0 →
   Db.is_order_fully_paid (Hook.remote Scenario.after_pix) "o2" = true).
Proof.
  apply (missing_order_counts_as_paid (Hook.remote Scenario.after_pix) "o2").
  by_running.
Defined.

(** ** The trigger [trg_update_order_payment_status] *)

Section TriggerFacts.
Context {Other : Type}.
Implicit Types (d : Db.database Other) (NEW : Db.payment_row).

Lemma update_order_payment_status_payments now NEW d :
  Db.pdv_order_payments (Db.update_order_payment_status now NEW d)
  = Db.pdv_order_payments d.
Proof.
  unfold Db.update_order_payment_status.
  destruct (Db.is_order_fully_paid d (Db.order_id NEW)); reflexivity.
Qed.

Lemma update_order_payment_status_total_amount now NEW d o :
  Db.pdv_sales (Db.update_order_payment_status now NEW d) !! o ≫= Db.total_amount
  = Db.pdv_sales d !! o ≫= Db.total_amount.
Proof.
  unfold Db.update_order_payment_status.
  destruct (Db.is_order_fully_paid d (Db.order_id NEW)); [simpl|reflexivity].
  rewrite lookup_alter. case_decide; [subst o|reflexivity].
  destruct (Db.pdv_sales d !! Db.order_id NEW); reflexivity.
Qed.

(** The touch changes neither the payments nor any total, so it does not
    change who is fully paid. *)
Lemma is_order_fully_paid_after_touch now NEW d o :
  Db.is_order_fully_paid (Db.update_order_payment_status now NEW d) o
  = Db.is_order_fully_paid d o.
Proof.
  unfold Db.is_order_fully_paid, Db.get_order_payment_total, Db.rows.
  now rewrite update_order_payment_status_total_amount,
              update_order_payment_status_payments.
Qed.

Lemma update_order_payment_status_again now now' NEW d :
  Db.update_order_payment_status now' NEW (Db.update_order_payment_status now NEW d)
  = Db.update_order_payment_status now' NEW d.
Proof.
  unfold Db.update_order_payment_status at 1 3.
  rewrite is_order_fully_paid_after_touch.
  destruct (Db.is_order_fully_paid d (Db.order_id NEW)) eqn:Hpaid.
  - unfold Db.update_order_payment_status. rewrite Hpaid. simpl.
    f_equal. rewrite alter_alter_eq. now apply alter_ext.
  - unfold Db.update_order_payment_status. now rewrite Hpaid.
Qed.

Lemma constraints_split (d : Db.database Other) (r : Db.payment_row) :
  Db.constraints d r
  = match Db.column_checks r with
    | Some e => Some e
    | None => Db.foreign_key d r
    end.
Proof.
  unfold Db.constraints, Db.column_checks, Db.foreign_key.
  destruct (bool_decide (10 ^ 10 ≤ Z.abs (Db.amount r))); [reflexivity|].
  destruct (negb (bool_decide (Db.amount r > 0))); reflexivity.
Qed.

Lemma insert_payment_ok now k v d d' kr :
  Db.insert_payment now k v d = Db.PgOk (d', kr) →
  Db.constraints d (Db.new_row now v) = None ∧
  Db.pdv_order_payments d !! k = None ∧
  kr = (k, Db.new_row now v) ∧
  d' = Db.update_order_payment_status now (Db.new_row now v)
         (Db.write_row k (Db.new_row now v) d).
Proof.
  unfold Db.insert_payment. rewrite constraints_split.
  destruct (Db.column_checks (Db.new_row now v)); [discriminate|].
  destruct (Db.pdv_order_payments d !! k); [discriminate|].
  destruct (Db.foreign_key d (Db.new_row now v)); [discriminate|].
  intros [= <- <-]. repeat split.
Qed.

(** An INSERT whose row satisfies the constraints, under a key that is free,
    goes through; so does an UPDATE of an existing row to one that satisfies
    them. *)
Lemma insert_payment_succeeds now k v d :
  Db.constraints d (Db.new_row now v) = None →
  Db.pdv_order_payments d !! k = None →
  Db.insert_payment now k v d
  = Db.PgOk (Db.update_order_payment_status now (Db.new_row now v)
               (Db.write_row k (Db.new_row now v) d),
             (k, Db.new_row now v)).
Proof.
  rewrite constraints_split. unfold Db.insert_payment.
  destruct (Db.column_checks (Db.new_row now v)); [discriminate|].
  intros Hfk Hk. now rewrite Hk, Hfk.
Qed.

Lemma update_payment_succeeds now k set OLD d :
  Db.pdv_order_payments d !! k = Some OLD →
  Db.constraints d (Db.update_updated_at_column now (set OLD)) = None →
  Db.update_payment now k set d
  = Db.PgOk (Db.update_order_payment_status now
               (Db.update_updated_at_column now (set OLD))
               (Db.write_row k (Db.update_updated_at_column now (set OLD)) d)).
Proof. intros Hk Hc. unfold Db.update_payment. now rewrite Hk, Hc. Qed.

Lemma update_payment_ok now k set OLD d d' :
  Db.pdv_order_payments d !! k = Some OLD →
  Db.update_payment now k set d = Db.PgOk d' →
  Db.constraints d (Db.update_updated_at_column now (set OLD)) = None ∧
  d' = Db.update_order_payment_status now (Db.update_updated_at_column now (set OLD))
         (Db.write_row k (Db.update_updated_at_column now (set OLD)) d).
Proof.
  intros Hk. unfold Db.update_payment. rewrite Hk.
  destruct (Db.constraints d _); [discriminate|].
  intros [= <-]. split; reflexivity.
Qed.

End TriggerFacts.

(** C4: an INSERT or UPDATE of a payment whose row satisfies the constraints
    goes through, and then the database is the one
    [update_order_payment_status] leaves when run on the written row, after
    the write.  That function re-evaluates [is_order_fully_paid] for the row's
    order; if it holds, the order's row gets [updated_at = now] with its other
    columns kept, and no other order and no payment changes; if not, the
    database is unchanged.  Running it again leaves the result of a single
    run. *)
Theorem payment_write_touches_paid_order {Other : Type} (now : Z) :
  (∀ (d : Db.database Other) k v,
     Db.constraints d (Db.new_row now v) = None →
     Db.pdv_order_payments d !! k = None →
     ∃ d' kr, Db.insert_payment now k v d = Db.PgOk (d', kr)) ∧
  (∀ (d d' : Db.database Other) k v kr,
     Db.insert_payment now k v d = Db.PgOk (d', kr) →
     d' = Db.update_order_payment_status now kr.2 (Db.write_row k kr.2 d)) ∧
  (∀ (d : Db.database Other) k set OLD,
     Db.pdv_order_payments d !! k = Some OLD →
     Db.constraints d (Db.update_updated_at_column now (set OLD)) = None →
     ∃ d', Db.update_payment now k set d = Db.PgOk d') ∧
  (∀ (d d' : Db.database Other) k set OLD,
     Db.pdv_order_payments d !! k = Some OLD →
     Db.update_payment now k set d = Db.PgOk d' →
     let NEW := Db.update_updated_at_column now (set OLD) in
     d' = Db.update_order_payment_status now NEW (Db.write_row k NEW d)) ∧
  (∀ (d : Db.database Other) NEW,
     let d' := Db.update_order_payment_status now NEW d in
     Db.pdv_order_payments d' = Db.pdv_order_payments d ∧
     (∀ o, o ≠ Db.order_id NEW → Db.pdv_sales d' !! o = Db.pdv_sales d !! o) ∧
     (Db.is_order_fully_paid d (Db.order_id NEW) = true →
      ∀ s, Db.pdv_sales d !! Db.order_id NEW = Some s →
           Db.pdv_sales d' !! Db.order_id NEW
           = Some {| Db.total_amount := Db.total_amount s;
                     Db.sale_updated_at := now;
                     Db.sale_other := Db.sale_other s |}) ∧
     (Db.is_order_fully_paid d (Db.order_id NEW) = false → d' = d) ∧
     (∀ now', Db.update_order_payment_status now' NEW d'
              = Db.update_order_payment_status now' NEW d)).
Proof.
  split; [|split; [|split; [|split]]].
  - intros d k v Hc Hk. rewrite (insert_payment_succeeds _ _ _ _ Hc Hk). eauto.
  - intros d d' k v kr Hins.
    destruct (insert_payment_ok _ _ _ _ _ _ Hins) as (_ & _ & -> & ->). reflexivity.
  - intros d k set OLD Hk Hc. rewrite (update_payment_succeeds _ _ _ _ _ Hk Hc). eauto.
  - intros d d' k set OLD Hk Hupd.
    destruct (update_payment_ok _ _ _ _ _ _ Hk Hupd) as (_ & ->). reflexivity.
  - intros d NEW d'. subst d'. repeat split.
    + apply update_order_payment_status_payments.
    + intros o Ho. unfold Db.update_order_payment_status.
      destruct (Db.is_order_fully_paid d (Db.order_id NEW)); [simpl|reflexivity].
      now apply lookup_alter_ne.
    + intros Hpaid s Hs. unfold Db.update_order_payment_status.
      rewrite Hpaid. simpl. rewrite lookup_alter_eq, Hs. reflexivity.
    + intros Hpaid. unfold Db.update_order_payment_status. now rewrite Hpaid.
    + intros now'. apply update_order_payment_status_again.
Qed.

(** In the scenario: the INSERT of the second payment touches the order at
    time 7; and, on the ledger with the first payment only, the UPDATE that
    raises it to 100,00 at time 8 goes through and touches the order at
    time 8. *)
Lemma payment_write_touches_paid_order_scenario :
  Db.pdv_sales (Hook.remote Scenario.after_dinheiro) !! "o1"%string
  = Some {| Db.total_amount := Some 10000; Db.sale_updated_at := 7; Db.sale_other := () |}
  ∧ Db.pdv_sales (Hook.remote Scenario.after_pix) !! "o1"%string = Some Scenario.sale
  ∧ ∃ d', Db.update_payment 8 "p1" Scenario.set_amount_100 (Hook.remote Scenario.after_pix)
          = Db.PgOk d'
          ∧ Db.pdv_sales d' !! "o1"%string
            = Some {| Db.total_amount := Some 10000; Db.sale_updated_at := 8;
                      Db.sale_other := () |}
          ∧ Db.pdv_order_payments d' !! "p1"%string
              ≫= (λ r, Some (Db.amount r, Db.updated_at r)) = Some (10000, Some 8).
Proof.
  split; [|split].
  - destruct (payment_write_touches_paid_order (Other:=unit) 7)
      as (_ & Hins & _ & _ & Htouch).
    pose (NEW := Db.new_row 7 Scenario.dinheiro60_values).
    assert (Hook.remote Scenario.after_dinheiro
            = Db.update_order_payment_status 7 NEW
                (Db.write_row "p2" NEW (Hook.remote Scenario.after_pix))) as Hrun.
    { apply (Hins (Hook.remote Scenario.after_pix) (Hook.remote Scenario.after_dinheiro)
               "p2"%string Scenario.dinheiro60_values ("p2"%string, NEW)).
      by_running. }
    rewrite Hrun.
    destruct (Htouch (Db.write_row "p2" NEW (Hook.remote Scenario.after_pix)) NEW)
      as (_ & _ & Hpaid & _).
    apply (Hpaid eq_refl Scenario.sale). by_running.
  - by_running.
  - destruct (payment_write_touches_paid_order (Other:=unit) 8)
      as (_ & _ & Hgoes & Hupd & Htouch).
    pose (OLD := Db.new_row 5 Scenario.pix40_values).
    pose (NEW := Db.update_updated_at_column 8 (Scenario.set_amount_100 OLD)).
    assert (Db.pdv_order_payments (Hook.remote Scenario.after_pix) !! "p1"%string
            = Some OLD) as Hk by by_running.
    destruct (Hgoes (Hook.remote Scenario.after_pix) "p1"%string
                Scenario.set_amount_100 OLD Hk ltac:(by_running)) as [d' Hd'].
    exists d'. split; [exact Hd'|].
    rewrite (Hupd (Hook.remote Scenario.after_pix) d' "p1"%string
               Scenario.set_amount_100 OLD Hk Hd').
    fold NEW.
    destruct (Htouch (Db.write_row "p1" NEW (Hook.remote Scenario.after_pix)) NEW)
      as (Hpay & _ & Hpaid & _).
    split.
    + apply (Hpaid eq_refl Scenario.sale). by_running.
    + rewrite Hpay. by_running.
Defined.

(** ** Validation of an amount *)

Section Validation.
Context {Other : Type}.
Variable formatPrice : float → string.
Variable pg_thrown : Db.pg_error → Hook.thrown.

Lemma validatePaymentAmount_not_positive amount currentTotal orderTotal :
  (amount <=? 0)%float = true →
  Hook.validatePaymentAmount formatPrice amount currentTotal orderTotal
  = {| Hook.isValid := false; Hook.message := Some "Valor deve ser maior que zero" |}.
Proof. intros Hle. unfold Hook.validatePaymentAmount, Js.le. now rewrite Hle. Qed.



(** A refused request or statement leaves the database as it was, and the
    hook reports it: [null], the error message set, [loading] back to
    false. *)
Lemma addPaymentPartial_null_amount now k orderId paymentData
    (w : Hook.world (Other:=Other)) :
  Js.to_numeric (Hook.form_amount paymentData) = None →
  Hook.addPaymentPartial pg_thrown None now k orderId paymentData w
  = (None,
     {| Hook.hook :=
          {| Hook.loading := false;
             Hook.error :=
               Some (Hook.message_of (pg_thrown Db.not_null_violation)
                       "Erro ao adicionar pagamento") |};
        Hook.remote := Hook.remote w |}).
Proof.
  intros Hnull. unfold Hook.addPaymentPartial, Hook.insert_single, Hook.wire; simpl.
  rewrite Hnull. reflexivity.
Qed.

Lemma addPaymentPartial_refused now k orderId paymentData
    (w : Hook.world (Other:=Other)) v e :
  Hook.wire (Hook.body orderId paymentData) = Some v →
  Db.insert_payment now k v (Hook.remote w) = Db.PgError e →
  Hook.addPaymentPartial pg_thrown None now k orderId paymentData w
  = (None,
     {| Hook.hook :=
          {| Hook.loading := false;
             Hook.error :=
               Some (Hook.message_of (pg_thrown e) "Erro ao adicionar pagamento") |};
        Hook.remote := Hook.remote w |}).
Proof.
  intros Hwire Hins. unfold Hook.addPaymentPartial, Hook.insert_single; simpl.
  rewrite Hwire. simpl. rewrite Hins. reflexivity.
Qed.

Lemma insert_payment_not_positive now k v (d : Db.database Other) :
  Db.ins_amount v ≤ 0 →
  ∃ e, Db.insert_payment now k v d = Db.PgError e ∧
       (- 10 ^ 10 < Db.ins_amount v → e = Db.check_violation).
Proof.
  intros Hle. unfold Db.insert_payment, Db.column_checks; simpl.
  destruct (bool_decide (10 ^ 10 ≤ Z.abs (Db.ins_amount v))) eqn:Hrange.
  - eexists; split; [reflexivity|].
    apply bool_decide_eq_true in Hrange. lia.
  - rewrite (bool_decide_eq_false_2 (Db.ins_amount v > 0)) by lia. simpl.
    eexists; split; [reflexivity|]. reflexivity.
Qed.

End Validation.




(** [addPaymentPartial] itself does not call [validatePaymentAmount]: on the
    order already paid in full a further payment is inserted. *)
Example addPaymentPartial_does_not_validate :
  (∀ formatPrice,
     Hook.isValid (Hook.validatePaymentAmount formatPrice 50 100 100) = false) ∧
  Db.get_order_payment_total
    (Hook.remote
       (Hook.addPaymentPartial Scenario.pg_thrown None 9 "p3" "o1"
          {| Hook.form_payment_type := Db.voucher; Hook.form_amount := 50;
             Hook.form_notes := None |} Scenario.after_dinheiro).2) "o1" = 15000.
Proof. split; [reflexivity|by_running]. Qed.

(** C6: an amount [<= 0] is refused everywhere: [validatePaymentAmount]
    answers invalid with 'Valor deve ser maior que zero'; a row with an
    amount ≤ 0 fails [CHECK (amount > 0)] and its INSERT is refused (with a
    check violation whenever the amount fits the column); the amount the
    hook's number arrives as is not positive; and through [addPaymentPartial]
    nothing is inserted, the result is null and the error is set. *)
Theorem nonpositive_amount_rejected {Other : Type} (formatPrice : float → string)
    (pg_thrown : Db.pg_error → Hook.thrown) (amount : float) :
  (amount <=? 0)%float = true →
  (∀ currentTotal orderTotal,
     Hook.validatePaymentAmount formatPrice amount currentTotal orderTotal
     = {| Hook.isValid := false; Hook.message := Some "Valor deve ser maior que zero" |}) ∧
  (∀ now k v (d : Db.database Other),
     Db.ins_amount v ≤ 0 →
     ¬ Db.amount (Db.new_row now v) > 0 ∧
     ∃ e, Db.insert_payment now k v d = Db.PgError e ∧
          (- 10 ^ 10 < Db.ins_amount v → e = Db.check_violation)) ∧
  (∀ c, Js.to_numeric amount = Some c → c ≤ 0) ∧
  (∀ net now k orderId paymentData (w : Hook.world (Other:=Other)),
     Hook.form_amount paymentData = amount →
     let out := Hook.addPaymentPartial pg_thrown net now k orderId paymentData w in
     out.1 = None ∧ Hook.remote out.2 = Hook.remote w ∧
     is_Some (Hook.error (Hook.hook out.2)) ∧ Hook.loading (Hook.hook out.2) = false).
Proof.
  intros Hle. split; [|split; [|split]].
  - intros. now apply validatePaymentAmount_not_positive.
  - intros now k v d Hv. split; [simpl; lia|].
    now apply insert_payment_not_positive.
  - intros c. now apply to_numeric_not_positive.
  - intros net now k orderId paymentData w <-. destruct net as [e|].
    + unfold Hook.addPaymentPartial, Hook.insert_single; simpl. eauto.
    + destruct (Js.to_numeric (Hook.form_amount paymentData)) as [c|] eqn:Hc.
      * pose proof (to_numeric_not_positive _ _ Hle Hc) as Hc0.
        assert (Hook.wire (Hook.body orderId paymentData)
                = Some {| Db.ins_order_id := orderId;
                          Db.ins_payment_type := Hook.form_payment_type paymentData;
                          Db.ins_amount := c;
                          Db.ins_status := Some Db.confirmed;
                          Db.ins_notes := Hook.form_notes paymentData |}) as Hwire
          by (unfold Hook.wire; simpl; now rewrite Hc).
        destruct (insert_payment_not_positive now k _ (Hook.remote w)
                    (Hc0 : Db.ins_amount
                             {| Db.ins_order_id := orderId;
                                Db.ins_payment_type := Hook.form_payment_type paymentData;
                                Db.ins_amount := c;
                                Db.ins_status := Some Db.confirmed;
                                Db.ins_notes := Hook.form_notes paymentData |} ≤ 0))
          as (e & He & _).
        rewrite (addPaymentPartial_refused pg_thrown _ _ _ _ _ _ _ Hwire He). simpl. eauto.
      * rewrite (addPaymentPartial_null_amount pg_thrown _ _ _ _ _ Hc). simpl. eauto.
Qed.

Lemma nonpositive_amount_rejected_scenario :
  (∀ formatPrice,
     Hook.validatePaymentAmount formatPrice 0 40 100
     = {| Hook.isValid := false; Hook.message := Some "Valor deve ser maior que zero" |})
  ∧ Hook.addPaymentPartial Scenario.pg_thrown None 6 "p2" "o1"
      {| Hook.form_payment_type := Db.pix; Hook.form_amount := 0; Hook.form_notes := None |}
      Scenario.after_pix
    = (None,
       {| Hook.hook := {| Hook.loading := false;
                          Hook.error := Some "Erro ao adicionar pagamento" |};
          Hook.remote := Hook.remote Scenario.after_pix |}).
Proof.
  split.
  - intros formatPrice.
    apply (proj1 (nonpositive_amount_rejected (Other:=unit) formatPrice
                    Scenario.pg_thrown 0 eq_refl)).
  - by_running.
Defined.

(** ** Deleting a payment *)

(** C7: DELETE has no trigger, so [pdv_sales] is the same after it; the
    server's paid total of the order drops by the amount of a deleted
    confirmed payment, and [is_order_fully_paid] then compares that smaller
    total; [removePaymentPartial] is exactly this DELETE.  In the scenario the
    order paid in full is no longer fully paid once its second payment is
    deleted, and its row still carries the timestamp of the touch. *)
Theorem delete_payment_skips_recomputation :
  (∀ (Other : Type) (d : Db.database Other) payment_id,
     Db.pdv_sales (Db.delete_payment payment_id d) = Db.pdv_sales d) ∧
  (∀ (Other : Type) (d : Db.database Other) payment_id r,
     Db.pdv_order_payments d !! payment_id = Some r →
     Db.status r = Some Db.confirmed →
     Db.get_order_payment_total (Db.delete_payment payment_id d) (Db.order_id r)
     = Db.get_order_payment_total d (Db.order_id r) - Db.amount r) ∧
  (∀ (Other : Type) (w : Hook.world (Other:=Other)) payment_id,
     Hook.removePaymentPartial None payment_id w
     = (true,
        {| Hook.hook := {| Hook.loading := false; Hook.error := None |};
           Hook.remote := Db.delete_payment payment_id (Hook.remote w) |})) ∧
  (∃ (d : Db.database unit) payment_id order_uuid,
     Db.is_order_fully_paid d order_uuid = true ∧
     Db.is_order_fully_paid (Db.delete_payment payment_id d) order_uuid = false ∧
     Db.pdv_sales (Db.delete_payment payment_id d) = Db.pdv_sales d).
Proof.
  split; [|split; [|split]].
  - reflexivity.
  - intros Other d payment_id r Hk Hconfirmed.
    rewrite (get_order_payment_total_delete d payment_id r _ Hk).
    rewrite decide_True; [reflexivity|]. now split.
  - reflexivity.
  - exists (Hook.remote Scenario.after_dinheiro), "p2"%string, "o1"%string.
    repeat split; by_running.
Qed.

Lemma delete_payment_skips_recomputation_scenario :
  Db.get_order_payment_total
    (Db.delete_payment "p2" (Hook.remote Scenario.after_dinheiro)) "o1" = 10000 - 6000.
Proof.
  destruct delete_payment_skips_recomputation as (_ & Htotal & _).
  apply (Htotal unit (Hook.remote Scenario.after_dinheiro) "p2"%string
           (Db.new_row 7 Scenario.dinheiro60_values)).
  - by_running.
  - reflexivity.
Defined.

(** ** Reading the payments of an order *)

Section Fetch.
Context {Other : Type}.
Implicit Types (w : Hook.world (Other:=Other)).

#[local] Instance created_le_total : Total Hook.created_le.
Proof.
  intros p q. unfold Hook.created_le.
  destruct (Hook.created_at p), (Hook.created_at q); auto. lia.
Qed.

Lemma getOrderPayments_failed e orderId w :
  Hook.getOrderPayments (Some e) orderId w
  = ([], {| Hook.hook :=
              {| Hook.loading := Hook.loading (Hook.hook w);
                 Hook.error := Some (Hook.message_of e "Erro ao buscar pagamentos") |};
            Hook.remote := Hook.remote w |}).
Proof. reflexivity. Qed.

Lemma getOrderPayments_sorted orderId w :
  Sorted Hook.created_le (Hook.getOrderPayments None orderId w).1.
Proof. unfold Hook.getOrderPayments; simpl. apply (Sorted_merge_sort _). Qed.

Lemma getOrderPayments_elem orderId w p :
  p ∈ (Hook.getOrderPayments None orderId w).1 ↔
  ∃ k r, Db.pdv_order_payments (Hook.remote w) !! k = Some r ∧
         Db.order_id r = orderId ∧ p = Hook.to_PaymentPartial (k, r).
Proof.
  rewrite (getOrderPayments_rows orderId w), list_elem_of_fmap. split.
  - intros ([k r] & -> & Hin). apply list_elem_of_filter in Hin as [Hord Hin].
    apply elem_of_map_to_list in Hin. eauto.
  - intros (k & r & Hk & Hord & ->). exists (k, r). split; [reflexivity|].
    apply list_elem_of_filter. split; [exact Hord|]. now apply elem_of_map_to_list.
Qed.

End Fetch.

(** C9: when the fetch fails, [getOrderPayments] returns the empty list and
    puts the error's message (or 'Erro ao buscar pagamentos') in the [error]
    field, the rest of the state unchanged; when it succeeds, it returns
    exactly the rows of the order, in ascending order of [created_at], with
    [error] cleared. *)
Theorem getOrderPayments_failure_and_order {Other : Type} (orderId : string)
    (w : Hook.world (Other:=Other)) :
  (∀ e, Hook.getOrderPayments (Some e) orderId w
        = ([], {| Hook.hook :=
                    {| Hook.loading := Hook.loading (Hook.hook w);
                       Hook.error := Some (Hook.message_of e "Erro ao buscar pagamentos") |};
                  Hook.remote := Hook.remote w |})) ∧
  (let out := Hook.getOrderPayments None orderId w in
   Sorted Hook.created_le out.1 ∧
   out.1 ≡ₚ Hook.to_PaymentPartial <$>
              filter (λ kr, Db.order_id kr.2 = orderId)
                     (map_to_list (Db.pdv_order_payments (Hook.remote w))) ∧
   (∀ p, p ∈ out.1 ↔
         ∃ k r, Db.pdv_order_payments (Hook.remote w) !! k = Some r ∧
                Db.order_id r = orderId ∧ p = Hook.to_PaymentPartial (k, r)) ∧
   out.2 = {| Hook.hook := {| Hook.loading := Hook.loading (Hook.hook w);
                              Hook.error := None |};
              Hook.remote := Hook.remote w |}).
Proof.
  split.
  - intros e. apply getOrderPayments_failed.
  - repeat split.
    + apply getOrderPayments_sorted.
    + apply getOrderPayments_rows.
    + apply getOrderPayments_elem.
    + apply getOrderPayments_elem.
Qed.

(** ** Adding a payment *)

(** C10: whatever [addPaymentPartial] is given, the row it returns has status
    confirmed, and every row of [pdv_order_payments] after the call was there
    before or is the row of the new key, with status confirmed. *)
Theorem addPaymentPartial_inserts_confirmed {Other : Type}
    (pg_thrown : Db.pg_error → Hook.thrown) (net : option Hook.thrown) (now : Z)
    (gen_random_uuid orderId : string) (paymentData : Hook.PaymentFormData)
    (w : Hook.world (Other:=Other)) :
  let out := Hook.addPaymentPartial pg_thrown net now gen_random_uuid orderId paymentData w in
  (∀ p, out.1 = Some p → Hook.status p = Some Db.confirmed) ∧
  (∀ k r, Db.pdv_order_payments (Hook.remote out.2) !! k = Some r →
          Db.pdv_order_payments (Hook.remote w) !! k = Some r
          ∨ (k = gen_random_uuid ∧ Db.status r = Some Db.confirmed)).
Proof.
  unfold Hook.addPaymentPartial, Hook.insert_single, Hook.wire; simpl.
  destruct net as [e|]; simpl.
  { split; [discriminate|]. auto. }
  destruct (Js.to_numeric (Hook.form_amount paymentData)) as [c|]; simpl.
  2:{ split; [discriminate|]. auto. }
  destruct (Db.insert_payment _ _ _ _) as [[d' kr]|e] eqn:Hins; simpl.
  2:{ split; [discriminate|]. auto. }
  destruct (insert_payment_ok _ _ _ _ _ _ Hins) as (_ & _ & -> & ->).
  split.
  - intros p [= <-]. reflexivity.
  - intros k r. rewrite update_order_payment_status_payments. simpl.
    rewrite lookup_insert. case_decide as Hk.
    + intros [= <-]. right. split; [now symmetry|reflexivity].
    + auto.
Qed.

Lemma addPaymentPartial_inserts_confirmed_scenario :
  ∃ p, (Hook.addPaymentPartial Scenario.pg_thrown None 5 "p1" "o1" Scenario.pix40
          (Scenario.on Scenario.empty_ledger)).1 = Some p
       ∧ Hook.status p = Some Db.confirmed.
Proof.
  eexists. split; [by_running|].
  apply (proj1 (addPaymentPartial_inserts_confirmed Scenario.pg_thrown None 5 "p1" "o1"
                  Scenario.pix40 (Scenario.on Scenario.empty_ledger))).
  by_running.
Defined.

(** * Further properties of the hook and of the migration *)

(** ** [getPaymentSummary] *)

(** X1: in the summary, the subtotal of each method is what adding up, from 0
    and in list order, the amounts of the confirmed payments of that method
    gives, and [total] is what adding up the amounts of all the confirmed
    payments gives. *)
Theorem getPaymentSummary_subtotals (payments : list Hook.PaymentPartial) :
  let summary := Hook.getPaymentSummary payments in
  (∀ t, Hook.by_method t summary
        = Hook.added_up
            (filter (λ p, Hook.status p = Some Db.confirmed ∧ Hook.payment_type p = t)
                    payments)) ∧
  Hook.total summary
  = Hook.added_up (filter (λ p, Hook.status p = Some Db.confirmed) payments).
Proof.
  intros summary. split.
  - intros t. apply getPaymentSummary_by_method.
  - apply getPaymentSummary_total.
Qed.

(** X2: payments that are not confirmed (pending, cancelled, no status) change
    nothing in the summary, wherever they stand in the list. *)
Theorem getPaymentSummary_ignores_unconfirmed (payments : list Hook.PaymentPartial) :
  Hook.getPaymentSummary (filter (λ p, Hook.status p = Some Db.confirmed) payments)
  = Hook.getPaymentSummary payments.
Proof.
  apply PaymentSummary_eq.
  - intros t. rewrite !getPaymentSummary_by_method.
    rewrite list_filter_filter. f_equal.
    apply list_filter_iff. intros p. tauto.
  - rewrite !getPaymentSummary_total. rewrite list_filter_filter. f_equal.
    apply list_filter_iff. intros p. tauto.
Qed.

(** ** A failed fetch, and the server's answer *)

(** X6: when the fetch fails, an order with a positive total is reported with
    no payment, nothing paid, the whole total remaining and not fully paid;
    the failure shows only in the [error] field. *)
Theorem getMixedPaymentData_failed_fetch {Other : Type} (e : Hook.thrown)
    (orderId : string) (orderTotal : float) (w : Hook.world (Other:=Other)) :
  (0 <? orderTotal)%float = true →
  Hook.getMixedPaymentData (Some e) orderId orderTotal w
  = ({| Hook.order_id := orderId;
        Hook.order_total := orderTotal;
        Hook.payments := [];
        Hook.total_paid := 0;
        Hook.remaining_amount := orderTotal;
        Hook.is_fully_paid := false |},
     {| Hook.hook :=
          {| Hook.loading := Hook.loading (Hook.hook w);
             Hook.error := Some (Hook.message_of e "Erro ao buscar pagamentos") |};
        Hook.remote := Hook.remote w |}).
Proof.
  intros Hpos. unfold Hook.getMixedPaymentData. rewrite getOrderPayments_failed. simpl.
  unfold Js.ge. rewrite (ltb_leb_false _ _ Hpos).
  rewrite (sub_zero_pos _ Hpos), (Math_max_0_pos _ Hpos). reflexivity.
Qed.

Lemma getMixedPaymentData_failed_fetch_scenario :
  Hook.is_fully_paid
    (Hook.getMixedPaymentData (Some (Hook.Error "Failed to fetch")) "o1" 100
       Scenario.after_dinheiro).1 = false.
Proof.
  rewrite (getMixedPaymentData_failed_fetch (Hook.Error "Failed to fetch") "o1" 100
             Scenario.after_dinheiro); reflexivity.
Defined.

(** X7: [isOrderFullyPaid] answers true exactly when the call went through
    and the server's [is_order_fully_paid] holds; a failed call is answered
    like an unpaid order. *)
Theorem isOrderFullyPaid_true_iff {Other : Type} (net : option Hook.thrown)
    (orderId : string) (w : Hook.world (Other:=Other)) :
  Hook.isOrderFullyPaid net orderId w = true
  ↔ net = None ∧ Db.is_order_fully_paid (Hook.remote w) orderId = true.
Proof.
  unfold Hook.isOrderFullyPaid, Hook.rpc_is_order_fully_paid.
  destruct net as [e|]; simpl.
  - split; [discriminate|]. intros [? _]. discriminate.
  - split; [now split|]. now intros [_ ?].
Qed.

(** ** The statements on [pdv_order_payments] and the paid totals *)

Section Statements.
Context {Other : Type}.
Implicit Types (d : Db.database Other) (r NEW OLD : Db.payment_row).

Lemma write_row_delete d k r :
  Db.write_row k r (Db.delete_payment k d) = Db.write_row k r d.
Proof. unfold Db.write_row, Db.delete_payment; simpl. now rewrite insert_delete_eq. Qed.

(** Writing a row replaces what the old row of that key contributed, if there
    was one, by what the new row contributes. *)
Lemma get_order_payment_total_write d k r order_uuid :
  Db.get_order_payment_total (Db.write_row k r d) order_uuid
  = Db.get_order_payment_total d order_uuid
    - match Db.pdv_order_payments d !! k with
      | Some OLD => Db.contribution order_uuid OLD
      | None => 0
      end
    + Db.contribution order_uuid r.
Proof.
  unfold Db.contribution.
  destruct (Db.pdv_order_payments d !! k) as [OLD|] eqn:Hk.
  - rewrite <- write_row_delete.
    rewrite get_order_payment_total_write_fresh
      by (simpl; apply lookup_delete_eq).
    rewrite (get_order_payment_total_delete d k OLD _ Hk). lia.
  - rewrite get_order_payment_total_write_fresh by assumption. lia.
Qed.

Lemma get_order_payment_total_after_touch now NEW d order_uuid :
  Db.get_order_payment_total (Db.update_order_payment_status now NEW d) order_uuid
  = Db.get_order_payment_total d order_uuid.
Proof.
  unfold Db.get_order_payment_total, Db.rows.
  now rewrite update_order_payment_status_payments.
Qed.

Lemma insert_payment_total now k v d d' kr order_uuid :
  Db.insert_payment now k v d = Db.PgOk (d', kr) →
  Db.get_order_payment_total d' order_uuid
  = Db.get_order_payment_total d order_uuid
    + Db.contribution order_uuid (Db.new_row now v).
Proof.
  intros Hins. destruct (insert_payment_ok _ _ _ _ _ _ Hins) as (_ & Hk & _ & ->).
  rewrite get_order_payment_total_after_touch, get_order_payment_total_write, Hk. lia.
Qed.

Lemma contribution_stamp now order_uuid r :
  Db.contribution order_uuid (Db.update_updated_at_column now r)
  = Db.contribution order_uuid r.
Proof. reflexivity. Qed.

Lemma constraints_None d r :
  Db.constraints d r = None
  ↔ Z.abs (Db.amount r) < 10 ^ 10 ∧ Db.amount r > 0
    ∧ is_Some (Db.pdv_sales d !! Db.order_id r).
Proof.
  unfold Db.constraints.
  destruct (bool_decide (10 ^ 10 ≤ Z.abs (Db.amount r))) eqn:H1.
  { apply bool_decide_eq_true in H1. split; [discriminate|]. lia. }
  apply bool_decide_eq_false in H1.
  destruct (bool_decide (Db.amount r > 0)) eqn:H2; simpl.
  2:{ apply bool_decide_eq_false in H2. split; [discriminate|]. tauto. }
  apply bool_decide_eq_true in H2.
  destruct (bool_decide (Db.pdv_sales d !! Db.order_id r = None)) eqn:H3.
  - apply bool_decide_eq_true in H3. split; [discriminate|].
    intros (_ & _ & [s Hs]). congruence.
  - apply bool_decide_eq_false in H3. split; [|reflexivity].
    intros _. repeat split; [lia|assumption|].
    destruct (Db.pdv_sales d !! Db.order_id r); [eauto|congruence].
Qed.

Lemma touch_keeps_sales now NEW d o :
  is_Some (Db.pdv_sales (Db.update_order_payment_status now NEW d) !! o)
  ↔ is_Some (Db.pdv_sales d !! o).
Proof.
  unfold Db.update_order_payment_status.
  destruct (Db.is_order_fully_paid d (Db.order_id NEW)); [simpl|reflexivity].
  apply lookup_alter_is_Some.
Qed.

Lemma valid_after_touch now NEW d :
  Db.valid d → Db.valid (Db.update_order_payment_status now NEW d).
Proof.
  unfold Db.valid. rewrite update_order_payment_status_payments.
  intros Hv k r Hk. specialize (Hv k r Hk). simpl in *.
  apply constraints_None in Hv as (? & ? & ?). apply constraints_None.
  repeat split; [assumption..|]. now apply touch_keeps_sales.
Qed.

Lemma valid_write_row k r d :
  Db.constraints d r = None → Db.valid d → Db.valid (Db.write_row k r d).
Proof.
  intros Hr Hv. unfold Db.valid, Db.write_row; simpl.
  apply map_Forall_insert_2; [exact Hr|exact Hv].
Qed.

Lemma foldr_add_nonneg (l : list Z) :
  Forall (λ x, 0 ≤ x) l → 0 ≤ foldr Z.add 0 l.
Proof. induction 1; simpl; lia. Qed.

Lemma valid_total_nonneg d order_uuid :
  Db.valid d → 0 ≤ Db.get_order_payment_total d order_uuid.
Proof.
  intros Hv. rewrite get_order_payment_total_sum. apply foldr_add_nonneg.
  apply Forall_forall. intros x Hx.
  apply list_elem_of_fmap in Hx as (r & -> & Hr).
  apply list_elem_of_filter in Hr as [_ Hr]. unfold Db.rows in Hr.
  apply list_elem_of_fmap in Hr as ([k r'] & -> & Hkr).
  apply elem_of_map_to_list in Hkr.
  pose proof (Hv k r' Hkr) as Hc. simpl in Hc.
  apply constraints_None in Hc. simpl. lia.
Qed.

End Statements.

(** X9: a successful INSERT changes the paid total of the row's order only:
    by the amount when the row is confirmed (given so, or by the column
    default), by nothing when it is pending or cancelled. *)
Theorem insert_payment_changes_totals {Other : Type} (now : Z) (k : string)
    (v : Db.insert_values) (d d' : Db.database Other) (kr : string * Db.payment_row) :
  Db.insert_payment now k v d = Db.PgOk (d', kr) →
  (∀ o, o ≠ Db.ins_order_id v →
        Db.get_order_payment_total d' o = Db.get_order_payment_total d o) ∧
  (Db.ins_status v = None ∨ Db.ins_status v = Some Db.confirmed →
   Db.get_order_payment_total d' (Db.ins_order_id v)
   = Db.get_order_payment_total d (Db.ins_order_id v) + Db.ins_amount v) ∧
  (Db.ins_status v = Some Db.pending ∨ Db.ins_status v = Some Db.cancelled →
   Db.get_order_payment_total d' (Db.ins_order_id v)
   = Db.get_order_payment_total d (Db.ins_order_id v)).
Proof.
  intros Hins. repeat split.
  - intros o Ho. rewrite (insert_payment_total _ _ _ _ _ _ o Hins).
    unfold Db.contribution. rewrite decide_False; [lia|].
    intros [Hord _]. simpl in Hord. congruence.
  - intros Hst. rewrite (insert_payment_total _ _ _ _ _ _ _ Hins).
    unfold Db.contribution. rewrite decide_True; [reflexivity|].
    split; [reflexivity|]. simpl. destruct Hst as [-> | ->]; reflexivity.
  - intros Hst. rewrite (insert_payment_total _ _ _ _ _ _ _ Hins).
    unfold Db.contribution. rewrite decide_False; [lia|].
    intros [_ Hs]. simpl in Hs. destruct Hst as [Hst | Hst]; rewrite Hst in Hs; discriminate.
Qed.

Lemma insert_payment_changes_totals_scenario :
  Db.get_order_payment_total (Hook.remote Scenario.after_dinheiro) "o1"
  = Db.get_order_payment_total (Hook.remote Scenario.after_pix) "o1" + 6000.
Proof.
  apply (proj1 (proj2 (insert_payment_changes_totals 7 "p2"
           {| Db.ins_order_id := "o1"; Db.ins_payment_type := Db.dinheiro;
              Db.ins_amount := 6000; Db.ins_status := Some Db.confirmed;
              Db.ins_notes := None |}
           (Hook.remote Scenario.after_pix) (Hook.remote Scenario.after_dinheiro)
           ("p2"%string, Db.new_row 7
              {| Db.ins_order_id := "o1"; Db.ins_payment_type := Db.dinheiro;
                 Db.ins_amount := 6000; Db.ins_status := Some Db.confirmed;
                 Db.ins_notes := None |})
           ltac:(by_running)))).
  right. reflexivity.
Defined.

(** What a successful INSERT does to [pdv_sales]. *)
Lemma insert_payment_sales {Other : Type} (now : Z) (k : string)
    (v : Db.insert_values) (d d' : Db.database Other) (kr : string * Db.payment_row)
    (s : Db.sale_row Other) (T : Z) :
  Db.insert_payment now k v d = Db.PgOk (d', kr) →
  Db.pdv_sales d !! Db.ins_order_id v = Some s →
  Db.total_amount s = Some T →
  (Db.get_order_payment_total d' (Db.ins_order_id v) >= T →
   Db.pdv_sales d'
   = <[Db.ins_order_id v :=
         {| Db.total_amount := Some T; Db.sale_updated_at := now;
            Db.sale_other := Db.sale_other s |}]> (Db.pdv_sales d)) ∧
  (Db.get_order_payment_total d' (Db.ins_order_id v) < T →
   Db.pdv_sales d' = Db.pdv_sales d).
Proof.
  intros Hins Hs HT.
  destruct (insert_payment_ok _ _ _ _ _ _ Hins) as (_ & _ & _ & Hd').
  rewrite Hd'. rewrite get_order_payment_total_after_touch.
  set (mid := Db.write_row k (Db.new_row now v) d).
  assert (Db.pdv_sales mid !! Db.ins_order_id v ≫= Db.total_amount = Some T) as Hmid
    by (subst mid; simpl; rewrite Hs; exact HT).
  unfold Db.update_order_payment_status. simpl.
  split; intros Hpaid.
  - rewrite (proj2 (is_order_fully_paid_spec mid (Db.ins_order_id v)))
      by (rewrite Hmid; exact Hpaid).
    simpl. apply map_eq. intros o. rewrite lookup_alter, lookup_insert.
    case_decide; [|reflexivity]. rewrite Hs. simpl. unfold Db.set_updated_at.
    now rewrite HT.
  - destruct (Db.is_order_fully_paid mid (Db.ins_order_id v)) eqn:Hp; [|reflexivity].
    apply is_order_fully_paid_spec in Hp. rewrite Hmid in Hp. simpl in Hp. lia.
Qed.

(** X10: after a successful INSERT into an order with total T, the order's
    row is touched exactly when the paid total, the new row counted, reaches
    T: then its [updated_at] is the time of the statement and nothing else in
    [pdv_sales] differs; otherwise [pdv_sales] is as before. *)
Theorem insert_payment_touches_when_covered {Other : Type} (now : Z) (k : string)
    (v : Db.insert_values) (d d' : Db.database Other) (kr : string * Db.payment_row)
    (s : Db.sale_row Other) (T : Z) :
  Db.insert_payment now k v d = Db.PgOk (d', kr) →
  Db.pdv_sales d !! Db.ins_order_id v = Some s →
  Db.total_amount s = Some T →
  (Db.get_order_payment_total d' (Db.ins_order_id v) >= T →
   Db.pdv_sales d'
   = <[Db.ins_order_id v :=
         {| Db.total_amount := Some T; Db.sale_updated_at := now;
            Db.sale_other := Db.sale_other s |}]> (Db.pdv_sales d)) ∧
  (Db.get_order_payment_total d' (Db.ins_order_id v) < T →
   Db.pdv_sales d' = Db.pdv_sales d).
Proof. apply insert_payment_sales. Qed.

Lemma insert_payment_touches_when_covered_scenario :
  Db.pdv_sales (Hook.remote Scenario.after_pix) = Db.pdv_sales Scenario.empty_ledger.
Proof.
  apply (proj2 (insert_payment_touches_when_covered 5 "p1"
           {| Db.ins_order_id := "o1"; Db.ins_payment_type := Db.pix;
              Db.ins_amount := 4000; Db.ins_status := Some Db.confirmed;
              Db.ins_notes := None |}
           Scenario.empty_ledger (Hook.remote Scenario.after_pix)
           ("p1"%string, Db.new_row 5
              {| Db.ins_order_id := "o1"; Db.ins_payment_type := Db.pix;
                 Db.ins_amount := 4000; Db.ins_status := Some Db.confirmed;
                 Db.ins_notes := None |})
           Scenario.sale 10000 ltac:(by_running) ltac:(by_running) eq_refl)).
  by_running.
Defined.

(** X11: after a successful UPDATE of an existing row, the paid total of
    every order is the old one, less what the old row counted for that order,
    plus what the new row counts for it. *)
Theorem update_payment_changes_totals {Other : Type} (now : Z) (k : string)
    (set : Db.payment_row → Db.payment_row) (OLD : Db.payment_row)
    (d d' : Db.database Other) (order_uuid : string) :
  Db.pdv_order_payments d !! k = Some OLD →
  Db.update_payment now k set d = Db.PgOk d' →
  Db.get_order_payment_total d' order_uuid
  = Db.get_order_payment_total d order_uuid
    - Db.contribution order_uuid OLD + Db.contribution order_uuid (set OLD).
Proof.
  intros Hk Hupd. destruct (update_payment_ok _ _ _ _ _ _ Hk Hupd) as (_ & ->).
  rewrite get_order_payment_total_after_touch, get_order_payment_total_write, Hk.
  now rewrite contribution_stamp.
Qed.

Lemma update_payment_changes_totals_scenario :
  ∃ d', Db.update_payment 8 "p2" Scenario.cancel (Hook.remote Scenario.after_dinheiro)
        = Db.PgOk d'
        ∧ Db.get_order_payment_total d' "o1" = 10000 - 6000 + 0.
Proof.
  eexists. split; [by_running|].
  apply (update_payment_changes_totals 8 "p2" Scenario.cancel
           (Db.new_row 7
              {| Db.ins_order_id := "o1"; Db.ins_payment_type := Db.dinheiro;
                 Db.ins_amount := 6000; Db.ins_status := Some Db.confirmed;
                 Db.ins_notes := None |})
           (Hook.remote Scenario.after_dinheiro) _ "o1");
    by_running.
Defined.

(** X12: an UPDATE of an id that is not in the table succeeds and changes
    nothing; a successful UPDATE of an existing row stores the SET clause's
    row with [updated_at] set to the time of the statement, whatever the SET
    clause gave for it, and leaves every other row as it was. *)
Theorem update_payment_rows {Other : Type} (now : Z) (k : string)
    (set : Db.payment_row → Db.payment_row) (d : Db.database Other) :
  (Db.pdv_order_payments d !! k = None → Db.update_payment now k set d = Db.PgOk d) ∧
  (∀ OLD d',
     Db.pdv_order_payments d !! k = Some OLD →
     Db.update_payment now k set d = Db.PgOk d' →
     Db.pdv_order_payments d' !! k = Some (Db.update_updated_at_column now (set OLD)) ∧
     (Db.pdv_order_payments d' !! k ≫= Db.updated_at) = Some now ∧
     ∀ k', k' ≠ k → Db.pdv_order_payments d' !! k' = Db.pdv_order_payments d !! k').
Proof.
  split.
  - intros Hk. unfold Db.update_payment. now rewrite Hk.
  - intros OLD d' Hk Hupd.
    destruct (update_payment_ok _ _ _ _ _ _ Hk Hupd) as (_ & ->).
    rewrite update_order_payment_status_payments. simpl.
    rewrite lookup_insert_eq. repeat split.
    intros k' Hk'. now rewrite lookup_insert_ne.
Qed.

Lemma update_payment_rows_scenario :
  Db.update_payment 8 "p9" Scenario.cancel (Hook.remote Scenario.after_dinheiro)
  = Db.PgOk (Hook.remote Scenario.after_dinheiro).
Proof.
  apply (proj1 (update_payment_rows 8 "p9" Scenario.cancel
                  (Hook.remote Scenario.after_dinheiro))).
  by_running.
Defined.

(** ** Invariants of the payments table *)

Section Invariants.
Context {Other : Type}.
Implicit Types (d : Db.database Other) (r : Db.payment_row).

Lemma map_to_list_filter_Permutation (Q : string * Db.payment_row → Prop)
    `{!∀ kr, Decision (Q kr)} (m : gmap string Db.payment_row) :
  map_to_list (filter Q m) ≡ₚ filter Q (map_to_list m).
Proof.
  rewrite map_filter_alt. apply map_to_list_to_map.
  apply NoDup_fmap_fst.
  - intros k r1 r2 [_ H1]%list_elem_of_filter [_ H2]%list_elem_of_filter.
    apply elem_of_map_to_list in H1, H2. congruence.
  - apply NoDup_filter, NoDup_map_to_list.
Qed.

Lemma filter_none {A : Type} (P : A → Prop) `{!∀ x, Decision (P x)} (l : list A) :
  (∀ x, ¬ P x) → filter P l = [].
Proof.
  intros Hno. induction l as [|x l IH]; [reflexivity|].
  rewrite filter_cons, decide_False by apply Hno. exact IH.
Qed.

Lemma delete_sale_total sale_id d o :
  Db.get_order_payment_total (Db.delete_sale sale_id d) o
  = if decide (o = sale_id) then 0 else Db.get_order_payment_total d o.
Proof.
  rewrite !get_order_payment_total_sum. unfold Db.rows, Db.delete_sale; simpl.
  rewrite (foldr_add_Permutation _
             (Db.amount <$> filter (Db.confirmed_for o)
                (filter (λ kr, Db.order_id kr.2 ≠ sale_id)
                        (map_to_list (Db.pdv_order_payments d))).*2))
    by (now rewrite map_to_list_filter_Permutation).
  rewrite !filter_fmap_comm, list_filter_filter.
  destruct (decide (o = sale_id)) as [->|Hne].
  - rewrite filter_none; [reflexivity|].
    intros [k r] [[Hord _] Hne]. simpl in *. congruence.
  - f_equal. f_equal. f_equal. apply list_filter_iff.
    intros [k r]. unfold Db.confirmed_for. simpl. split; [tauto|].
    intros [Hord Hst]. repeat split; congruence.
Qed.

Lemma valid_delete_payment k d : Db.valid d → Db.valid (Db.delete_payment k d).
Proof. intros Hv. unfold Db.valid. simpl. now apply map_Forall_delete. Qed.

Lemma valid_delete_sale sale_id d : Db.valid d → Db.valid (Db.delete_sale sale_id d).
Proof.
  intros Hv k r Hk. simpl in *.
  apply map_lookup_filter_Some in Hk as [Hk Hne]. simpl in Hne.
  pose proof (Hv k r Hk) as Hc. simpl in Hc.
  apply constraints_None in Hc as (? & ? & ?). apply constraints_None.
  repeat split; [assumption..|]. simpl. now rewrite lookup_delete_ne.
Qed.

End Invariants.

(** X13: if every stored payment satisfies the table's constraints, this is
    still so after any INSERT or UPDATE that succeeds, after a DELETE of a
    payment and after the cascading DELETE of a sale. *)
Theorem valid_is_kept {Other : Type} (now : Z) (d : Db.database Other) :
  Db.valid d →
  (∀ k v d' kr, Db.insert_payment now k v d = Db.PgOk (d', kr) → Db.valid d') ∧
  (∀ k set d', Db.update_payment now k set d = Db.PgOk d' → Db.valid d') ∧
  (∀ k, Db.valid (Db.delete_payment k d)) ∧
  (∀ sale_id, Db.valid (Db.delete_sale sale_id d)).
Proof.
  intros Hv. repeat split.
  - intros k v d' kr Hins.
    destruct (insert_payment_ok _ _ _ _ _ _ Hins) as (Hc & _ & _ & ->).
    apply valid_after_touch. now apply valid_write_row.
  - intros k set d' Hupd.
    destruct (Db.pdv_order_payments d !! k) as [OLD|] eqn:Hk.
    + destruct (update_payment_ok _ _ _ _ _ _ Hk Hupd) as (Hc & ->).
      apply valid_after_touch. now apply valid_write_row.
    + unfold Db.update_payment in Hupd. rewrite Hk in Hupd.
      injection Hupd as <-. exact Hv.
  - intros k. now apply valid_delete_payment.
  - intros sale_id. now apply valid_delete_sale.
Qed.

Lemma valid_is_kept_scenario : Db.valid (Hook.remote Scenario.after_pix).
Proof.
  assert (Db.valid Scenario.empty_ledger) as Hv
    by (apply (bool_decide_unpack _); vm_compute; exact I).
  apply (proj1 (valid_is_kept 5 Scenario.empty_ledger Hv) "p1"%string
           {| Db.ins_order_id := "o1"; Db.ins_payment_type := Db.pix;
              Db.ins_amount := 4000; Db.ins_status := Some Db.confirmed;
              Db.ins_notes := None |}
           (Hook.remote Scenario.after_pix)
           ("p1"%string, Db.new_row 5
              {| Db.ins_order_id := "o1"; Db.ins_payment_type := Db.pix;
                 Db.ins_amount := 4000; Db.ins_status := Some Db.confirmed;
                 Db.ins_notes := None |})).
  by_running.
Defined.

(** X14: when the stored payments satisfy the constraints, every amount is
    positive and below 10^8 units, every payment belongs to an existing sale,
    no paid total is negative, and an order id without a total (no row in
    [pdv_sales], or a NULL total) is always answered as fully paid. *)
Theorem valid_rows_and_totals {Other : Type} (d : Db.database Other) :
  Db.valid d →
  (∀ k r, Db.pdv_order_payments d !! k = Some r →
          0 < Db.amount r < 10 ^ 10 ∧ is_Some (Db.pdv_sales d !! Db.order_id r)) ∧
  (∀ o, 0 ≤ Db.get_order_payment_total d o) ∧
  (∀ o, Db.pdv_sales d !! o ≫= Db.total_amount = None →
        Db.is_order_fully_paid d o = true).
Proof.
  intros Hv. repeat split.
  - pose proof (Hv k r H) as Hc. apply constraints_None in Hc. lia.
  - pose proof (Hv k r H) as Hc. apply constraints_None in Hc. lia.
  - pose proof (Hv k r H) as Hc. apply constraints_None in Hc. tauto.
  - intros o. now apply valid_total_nonneg.
  - intros o Hnone. apply is_order_fully_paid_spec. rewrite Hnone. simpl.
    pose proof (valid_total_nonneg d o Hv). lia.
Qed.

Lemma valid_rows_and_totals_scenario :
  Db.is_order_fully_paid (Hook.remote Scenario.after_pix) "o2" = true.
Proof.
  apply (proj2 (proj2 (valid_rows_and_totals (Hook.remote Scenario.after_pix)
                         ltac:(apply (bool_decide_unpack _); vm_compute; exact I)))).
  by_running.
Defined.

(** X15: a successful INSERT never takes an order out of the fully-paid state:
    whatever order was fully paid before still is. *)
Theorem insert_payment_keeps_paid {Other : Type} (now : Z) (k : string)
    (v : Db.insert_values) (d d' : Db.database Other) (kr : string * Db.payment_row)
    (order_uuid : string) :
  Db.insert_payment now k v d = Db.PgOk (d', kr) →
  Db.is_order_fully_paid d order_uuid = true →
  Db.is_order_fully_paid d' order_uuid = true.
Proof.
  intros Hins Hpaid. apply is_order_fully_paid_spec in Hpaid.
  apply is_order_fully_paid_spec.
  rewrite (insert_payment_total _ _ _ _ _ _ order_uuid Hins).
  destruct (insert_payment_ok _ _ _ _ _ _ Hins) as (Hc & _ & _ & ->).
  rewrite update_order_payment_status_total_amount. simpl.
  apply constraints_None in Hc as (_ & Hpos & _).
  unfold Db.contribution. case_decide; lia.
Qed.

Lemma insert_payment_keeps_paid_scenario :
  Db.is_order_fully_paid
    (Hook.remote
       (Hook.addPaymentPartial Scenario.pg_thrown None 9 "p3" "o1"
          {| Hook.form_payment_type := Db.voucher; Hook.form_amount := 50;
             Hook.form_notes := None |} Scenario.after_dinheiro).2) "o1" = true.
Proof.
  apply (insert_payment_keeps_paid 9 "p3"
           {| Db.ins_order_id := "o1"; Db.ins_payment_type := Db.voucher;
              Db.ins_amount := 5000; Db.ins_status := Some Db.confirmed;
              Db.ins_notes := None |}
           (Hook.remote Scenario.after_dinheiro) _
           ("p3"%string, Db.new_row 9
              {| Db.ins_order_id := "o1"; Db.ins_payment_type := Db.voucher;
                 Db.ins_amount := 5000; Db.ins_status := Some Db.confirmed;
                 Db.ins_notes := None |}) "o1");
    by_running.
Defined.

(** X16: when the stored payments satisfy the constraints, deleting a payment
    never raises a paid total, so an order that is fully paid after the
    DELETE was fully paid before it. *)
Theorem delete_payment_never_pays {Other : Type} (k : string) (d : Db.database Other)
    (order_uuid : string) :
  Db.valid d →
  Db.get_order_payment_total (Db.delete_payment k d) order_uuid
  ≤ Db.get_order_payment_total d order_uuid ∧
  (Db.is_order_fully_paid (Db.delete_payment k d) order_uuid = true →
   Db.is_order_fully_paid d order_uuid = true).
Proof.
  intros Hv.
  assert (Db.get_order_payment_total (Db.delete_payment k d) order_uuid
          ≤ Db.get_order_payment_total d order_uuid) as Hle.
  { destruct (Db.pdv_order_payments d !! k) as [r|] eqn:Hk.
    - rewrite (get_order_payment_total_delete d k r _ Hk).
      pose proof (Hv k r Hk) as Hc. apply constraints_None in Hc.
      case_decide; lia.
    - unfold Db.delete_payment. rewrite delete_id by assumption.
      destruct d; simpl. lia. }
  split; [exact Hle|].
  rewrite !is_order_fully_paid_spec. simpl. lia.
Qed.

Lemma delete_payment_never_pays_scenario :
  Db.get_order_payment_total
    (Db.delete_payment "p1" (Hook.remote Scenario.after_dinheiro)) "o1"
  ≤ Db.get_order_payment_total (Hook.remote Scenario.after_dinheiro) "o1".
Proof.
  apply (delete_payment_never_pays "p1" (Hook.remote Scenario.after_dinheiro) "o1").
  apply (bool_decide_unpack _). vm_compute. exact I.
Defined.

(** X17: deleting a sale takes its payments with it and nothing else: the
    sale's row is gone, the remaining payments are exactly those of other
    sales, every other order keeps its row, its paid total and its fully-paid
    answer, and the deleted id has paid total 0 and is answered as fully
    paid. *)
Theorem delete_sale_cascades {Other : Type} (sale_id : string) (d : Db.database Other) :
  let d' := Db.delete_sale sale_id d in
  Db.pdv_sales d' !! sale_id = None ∧
  (∀ k r, Db.pdv_order_payments d' !! k = Some r
          ↔ Db.pdv_order_payments d !! k = Some r ∧ Db.order_id r ≠ sale_id) ∧
  (∀ o, o ≠ sale_id →
        Db.pdv_sales d' !! o = Db.pdv_sales d !! o ∧
        Db.get_order_payment_total d' o = Db.get_order_payment_total d o ∧
        Db.is_order_fully_paid d' o = Db.is_order_fully_paid d o) ∧
  Db.get_order_payment_total d' sale_id = 0 ∧
  Db.is_order_fully_paid d' sale_id = true.
Proof.
  intros d'. subst d'.
  assert (∀ o, o ≠ sale_id →
               Db.pdv_sales (Db.delete_sale sale_id d) !! o = Db.pdv_sales d !! o) as Hsales
    by (intros o Ho; simpl; now rewrite lookup_delete_ne).
  split; [simpl; apply lookup_delete_eq|].
  split; [intros k r; simpl; apply map_lookup_filter_Some|].
  split; [|split].
  - intros o Ho.
    assert (Db.get_order_payment_total (Db.delete_sale sale_id d) o
            = Db.get_order_payment_total d o) as Htotal
      by (rewrite delete_sale_total; now rewrite decide_False).
    repeat split; [now apply Hsales|exact Htotal|].
    unfold Db.is_order_fully_paid. rewrite Htotal. now rewrite Hsales.
  - rewrite delete_sale_total. now rewrite decide_True.
  - apply is_order_fully_paid_spec. rewrite delete_sale_total, decide_True by reflexivity.
    simpl. rewrite lookup_delete_eq. simpl. lia.
Qed.

(** ** The hook's writes *)

Section HookWrites.
Context {Other : Type}.
Variable pg_thrown : Db.pg_error → Hook.thrown.
Implicit Types (w : Hook.world (Other:=Other)) (paymentData : Hook.PaymentFormData).

(** A non-null result means the request and the statement went through. *)
Lemma addPaymentPartial_Some net now k orderId paymentData w p :
  (Hook.addPaymentPartial pg_thrown net now k orderId paymentData w).1 = Some p →
  ∃ v, net = None ∧
       Hook.wire (Hook.body orderId paymentData) = Some v ∧
       p = Hook.to_PaymentPartial (k, Db.new_row now v) ∧
       Db.insert_payment now k v (Hook.remote w)
       = Db.PgOk ((Hook.addPaymentPartial pg_thrown net now k orderId paymentData w).2
                    .(Hook.remote),
                  (k, Db.new_row now v)) ∧
       Hook.hook (Hook.addPaymentPartial pg_thrown net now k orderId paymentData w).2
       = {| Hook.loading := false; Hook.error := None |}.
Proof.
  unfold Hook.addPaymentPartial, Hook.insert_single.
  destruct net as [e|]; simpl; [discriminate|].
  destruct (Hook.wire (Hook.body orderId paymentData)) as [v|]; simpl; [|discriminate].
  destruct (Db.insert_payment now k v (Hook.remote w)) as [[d' kr]|e] eqn:Hins;
    simpl; [|discriminate].
  intros [= <-].
  destruct (insert_payment_ok _ _ _ _ _ _ Hins) as (_ & _ & -> & _).
  exists v. repeat split. exact Hins.
Qed.

End HookWrites.



(** X19: removing the payment that [addPaymentPartial] has just returned
    succeeds and gives back the payments table and every paid total as they
    were before the payment was added. *)
Theorem add_then_remove {Other : Type} (pg_thrown : Db.pg_error → Hook.thrown)
    (net : option Hook.thrown) (now : Z) (gen_random_uuid orderId : string)
    (paymentData : Hook.PaymentFormData) (w : Hook.world (Other:=Other))
    (p : Hook.PaymentPartial) :
  (Hook.addPaymentPartial pg_thrown net now gen_random_uuid orderId paymentData w).1
  = Some p →
  let added := (Hook.addPaymentPartial pg_thrown net now gen_random_uuid orderId
                  paymentData w).2 in
  let out := Hook.removePaymentPartial None (Hook.id p) added in
  out.1 = true ∧
  Db.pdv_order_payments (Hook.remote out.2) = Db.pdv_order_payments (Hook.remote w) ∧
  (∀ o, Db.get_order_payment_total (Hook.remote out.2) o
        = Db.get_order_payment_total (Hook.remote w) o).
Proof.
  intros Hp added out.
  destruct (addPaymentPartial_Some pg_thrown _ _ _ _ _ _ _ Hp)
    as (v & _ & _ & -> & Hins & _).
  fold added in Hins.
  destruct (insert_payment_ok _ _ _ _ _ _ Hins) as (_ & Hk & _ & Hd').
  assert (Db.pdv_order_payments (Hook.remote out.2)
          = Db.pdv_order_payments (Hook.remote w)) as Hback.
  { subst out. simpl. rewrite Hd', update_order_payment_status_payments. simpl.
    now apply delete_insert_id. }
  split; [reflexivity|]. split; [exact Hback|].
  intros o. unfold Db.get_order_payment_total, Db.rows. now rewrite Hback.
Qed.

Lemma add_then_remove_scenario :
  Db.pdv_order_payments
    (Hook.remote (Hook.removePaymentPartial None "p2" Scenario.after_dinheiro).2)
  = Db.pdv_order_payments (Hook.remote Scenario.after_pix).
Proof.
  apply (add_then_remove Scenario.pg_thrown None 7 "p2" "o1" Scenario.dinheiro60
           Scenario.after_pix
           (Hook.to_PaymentPartial ("p2"%string, Db.new_row 7 Scenario.dinheiro60_values))).
  by_running.
Defined.



(** ** The fetched list *)

(** X23: on a successful fetch no two payments of the list have the same id,
    and the list is empty exactly when the table holds no payment of the
    order. *)
Theorem getOrderPayments_ids {Other : Type} (orderId : string)
    (w : Hook.world (Other:=Other)) :
  let l := (Hook.getOrderPayments None orderId w).1 in
  NoDup (Hook.id <$> l) ∧
  (l = [] ↔ ∀ k r, Db.pdv_order_payments (Hook.remote w) !! k = Some r →
                   Db.order_id r ≠ orderId).
Proof.
  intros l. split.
  - subst l. rewrite (getOrderPayments_rows orderId w), <- list_fmap_compose.
    change (Hook.id ∘ Hook.to_PaymentPartial) with (@fst string Db.payment_row).
    apply NoDup_fmap_fst.
    + intros k r1 r2 [_ H1]%list_elem_of_filter [_ H2]%list_elem_of_filter.
      apply elem_of_map_to_list in H1, H2. congruence.
    + apply NoDup_filter, NoDup_map_to_list.
  - split.
    + intros Hnil k r Hk Hord.
      assert (Hook.to_PaymentPartial (k, r) ∈ l) as Hin
        by (apply getOrderPayments_elem; eauto).
      rewrite Hnil in Hin. now apply elem_of_nil in Hin.
    + intros Hnone. destruct l as [|p l'] eqn:Hl; [reflexivity|].
      assert (p ∈ (Hook.getOrderPayments None orderId w).1) as Hin
        by (fold l; rewrite Hl; left).
      apply getOrderPayments_elem in Hin as (k & r & Hk & Hord & _).
      now destruct (Hnone k r Hk).
Qed.
